(** * SolarSentinel AI server: anomaly model, synthetic data generator, HTTP handlers

    A shallow embedding of

      - [src/ai-server/models/isolation_forest.py]  (class [IsolationForestModel])
      - [src/ai-server/data/generate_training_data.py]  ([generate_synthetic_data])
      - [src/ai-server/server.py]  (the [/predict] and [/retrain] handlers)

    Modelling conventions.

      - A Python [float] is a real number ([R]); [np.exp] is [exp].  Rounding,
        overflow, infinities and NaN of binary64 are not represented, except
        in [Binary64], which runs the confidence mapping on doubles at single
        scores.
      - A Python [int] is a [Z].
      - JSON values and the Python objects built from them are [pyval]s; a
        dict is an association list read from the front.
      - A method that mutates [self] and may raise is a function from the
        state to an outcome ([inl] exception / [inr] value) and the state the
        call leaves behind: mutations made before a [raise] persist.
      - numpy, scikit-learn, joblib, the numpy random generator, [datetime]
        and numpy's sine are not part of the repository; they are the fields
        of the classes [Sklearn], [NumpyRandom], [Datetime] and [NumpyMath].
        Nothing is assumed of [Sklearn]; of the others the theorems assume,
        as stated hypotheses, what their documentation says: a uniform draw
        lies between its bounds, a shuffle permutes, an hour is between 0
        and 23, a sine is at most 1. *)

From Stdlib Require Import Reals Lra Lia ZArith List String Bool.
From Stdlib Require Import Permutation PrimFloat.
Import ListNotations.

#[local] Set Warnings "-register-all".
#[local] Open Scope R_scope.

(** ** Python values, exceptions and the two monads *)

Module Py.

(** The objects the handlers and the model see: JSON values as Flask hands
    them over, and the dicts the generator builds. *)
Inductive pyval : Type :=
| PNone
| PBool (b : bool)
| PInt (n : Z)
| PFloat (x : R)
| PStr (s : string)
| PList (l : list pyval)
| PDict (d : list (string * pyval)).

(** A raised exception: its class and [str(e)].  The texts of the errors the
    interpreter raises itself follow CPython 3.11; nothing below depends on
    them. *)
Inductive exn : Type := Raise (cls : string) (msg : string).

Definition py_str (e : exn) : string := let (_, msg) := e in msg.

Definition py_class (e : exn) : string := let (cls, _) := e in cls.

Definition result (A : Type) : Type := (exn + A)%type.

(** A call on a mutable object: outcome and the object afterwards. *)
Definition M (S A : Type) : Type := S -> result A * S.

Class Monad (m : Type -> Type) : Type := {
  ret : forall {A}, A -> m A;
  bind : forall {A B}, m A -> (A -> m B) -> m B
}.

#[global] Instance result_Monad : Monad result := {
  ret A a := inr a;
  bind A B c k := match c with inl e => inl e | inr a => k a end
}.

#[global] Instance M_Monad (S : Type) : Monad (M S) := {
  ret A a := fun s => (inr a, s);
  bind A B c k := fun s =>
    match c s with
    | (inl e, s') => (inl e, s')
    | (inr a, s') => k a s'
    end
}.

Definition raise {A : Type} (e : exn) : result A := inl e.
Definition throw {S A : Type} (e : exn) : M S A := fun s => (inl e, s).
Definition lift {S A : Type} (c : result A) : M S A := fun s => (c, s).
Definition get {S : Type} : M S S := fun s => (inr s, s).
Definition modify {S : Type} (f : S -> S) : M S unit := fun s => (inr tt, f s).

(** A list comprehension whose body may raise: left to right, stopping at
    the first exception. *)
Fixpoint mapM {A B : Type} (f : A -> result B) (l : list A) : result (list B) :=
  match l with
  | [] => inr []
  | a :: l' =>
      match f a with
      | inl e => inl e
      | inr b =>
          match mapM f l' with
          | inl e => inl e
          | inr bs => inr (b :: bs)
          end
      end
  end.

(** [dict] lookup. *)
Fixpoint assoc (key : string) (d : list (string * pyval)) : option pyval :=
  match d with
  | [] => None
  | (k, v) :: d' => if String.eqb k key then Some v else assoc key d'
  end.

(** The value a dict holds under a key, for reading a response body. *)
Definition py_field (v : pyval) (key : string) : option pyval :=
  match v with
  | PDict d => assoc key d
  | _ => None
  end.

Definition type_name (v : pyval) : string :=
  match v with
  | PNone => "NoneType"
  | PBool _ => "bool"
  | PInt _ => "int"
  | PFloat _ => "float"
  | PStr _ => "str"
  | PList _ => "list"
  | PDict _ => "dict"
  end.

(** Truth value, as tested by [not v]. *)
Definition truthy (v : pyval) : bool :=
  match v with
  | PNone => false
  | PBool b => b
  | PInt n => negb (n =? 0)%Z
  | PFloat x => if Req_dec_T x 0 then false else true
  | PStr s => match s with EmptyString => false | String _ _ => true end
  | PList l => match l with [] => false | _ :: _ => true end
  | PDict d => match d with [] => false | _ :: _ => true end
  end.

Definition is_None (v : pyval) : bool :=
  match v with PNone => true | _ => false end.

(** [len(v)] *)
Definition py_len (v : pyval) : result Z :=
  match v with
  | PStr s => inr (Z.of_nat (String.length s))
  | PList l => inr (Z.of_nat (List.length l))
  | PDict d => inr (Z.of_nat (List.length d))
  | _ => raise (Raise "TypeError"
                  ("object of type '" ++ type_name v ++ "' has no len()"))
  end.

Fixpoint chars (s : string) : list pyval :=
  match s with
  | EmptyString => []
  | String c s' => PStr (String c EmptyString) :: chars s'
  end.

(** The items [for d in v] visits. *)
Definition py_iter (v : pyval) : result (list pyval) :=
  match v with
  | PList l => inr l
  | PStr s => inr (chars s)
  | PDict d => inr (map (fun kv => PStr (fst kv)) d)
  | _ => raise (Raise "TypeError"
                  ("'" ++ type_name v ++ "' object is not iterable"))
  end.

(** [v[key]] for a string key. *)
Definition py_getitem (v : pyval) (key : string) : result pyval :=
  match v with
  | PDict d =>
      match assoc key d with
      | Some x => inr x
      | None => raise (Raise "KeyError" ("'" ++ key ++ "'"))
      end
  | PList _ =>
      raise (Raise "TypeError" "list indices must be integers or slices, not str")
  | PStr _ =>
      raise (Raise "TypeError" "string indices must be integers, not 'str'")
  | _ => raise (Raise "TypeError"
                  ("'" ++ type_name v ++ "' object is not subscriptable"))
  end.

(** [v.get(key)] *)
Definition py_get (v : pyval) (key : string) : result pyval :=
  match v with
  | PDict d =>
      match assoc key d with
      | Some x => inr x
      | None => inr PNone
      end
  | _ => raise (Raise "AttributeError"
                  ("'" ++ type_name v ++ "' object has no attribute 'get'"))
  end.

(** [l[i]] on a sequence the libraries return. *)
Definition index {A : Type} (l : list A) (i : nat) : result A :=
  match nth_error l i with
  | Some a => inr a
  | None => raise (Raise "IndexError" "index out of range")
  end.

(** The number a value stands for in an arithmetic comparison; [None] when
    the comparison with a number is not supported. *)
Definition num_of (v : pyval) : option R :=
  match v with
  | PBool b => Some (if b then 1 else 0)
  | PInt n => Some (IZR n)
  | PFloat x => Some x
  | _ => None
  end.

Definition Rltb (x y : R) : bool := if Rlt_dec x y then true else false.
Definition Rleb (x y : R) : bool := if Rle_dec x y then true else false.

Definition unorderable {A : Type} (op : string) (a b : string) : result A :=
  raise (Raise "TypeError"
           ("'" ++ op ++ "' not supported between instances of '"
                ++ a ++ "' and '" ++ b ++ "'")).

(** [v < c], [v > c] and [lo <= v <= hi] for numeric literals [c], [lo], [hi]. *)
Definition py_lt (v : pyval) (c : R) : result bool :=
  match num_of v with
  | Some x => inr (Rltb x c)
  | None => unorderable "<" (type_name v) "int"
  end.

Definition py_gt (v : pyval) (c : R) : result bool :=
  match num_of v with
  | Some x => inr (Rltb c x)
  | None => unorderable ">" (type_name v) "int"
  end.

Definition py_between (lo : R) (v : pyval) (hi : R) : result bool :=
  match num_of v with
  | Some x => inr (Rleb lo x && Rleb x hi)
  | None => unorderable "<=" "int" (type_name v)
  end.

(** [int(x)] of a float: truncation toward zero. *)
Definition py_int (x : R) : Z :=
  if Rle_dec 0 x then Int_part x else (- Int_part (- x))%Z.

(** The number of iterations of [for _ in range(n)]. *)
Definition range_len (n : Z) : nat := Z.to_nat n.

End Py.

Declare Scope py_scope.
Delimit Scope py_scope with py.
Notation "x <- c ;; k" := (Py.bind c (fun x => k))
  (at level 61, c at next level, right associativity) : py_scope.
Notation "c ;;; k" := (Py.bind c (fun _ => k))
  (at level 61, right associativity) : py_scope.

(** ** Confidence mapping ([IsolationForestModel._calculate_confidence]) *)

Module Confidence.

(** [IsolationForestModel._calculate_confidence]; it does not touch [self]. *)
Definition _calculate_confidence (anomaly_score : R) : R :=
  let normalized := 1 / (1 + exp (- anomaly_score * 10)) in
  let confidence :=
    if Rlt_dec anomaly_score 0 then 1 - normalized else normalized in
  Rmax 0 (Rmin 1 confidence).

(** The value of [confidence] after the [if]/[else], before the last
    assignment. *)
Definition unclamped (anomaly_score : R) : R :=
  let normalized := 1 / (1 + exp (- anomaly_score * 10)) in
  if Rlt_dec anomaly_score 0 then 1 - normalized else normalized.

(** [max(0.0, min(1.0, confidence))] *)
Definition clamp (confidence : R) : R := Rmax 0 (Rmin 1 confidence).

(** The logistic function the specification calls [sigmoid]. *)
Definition sigmoid (x : R) : R := 1 / (1 + exp (- x)).

End Confidence.

(** The same arithmetic on IEEE binary64 doubles, for single runs.  [np_exp]
    is the platform's [exp]; Python's [min(a, b)] returns [b] only when
    [b < a], and [max(a, b)] returns [b] only when [b > a]. *)

Module Binary64.
#[local] Open Scope float_scope.

Definition py_min (a b : float) : float := if b <? a then b else a.
Definition py_max (a b : float) : float := if a <? b then b else a.

Definition _calculate_confidence (np_exp : float -> float) (anomaly_score : float)
  : float :=
  let normalized := 1 / (1 + np_exp (- anomaly_score * 10)) in
  let confidence :=
    if anomaly_score <? 0 then 1 - normalized else normalized in
  py_max 0 (py_min 1 confidence).

(** The values of [np.exp] the runs below need: [np.exp(-100.0)] is the double
    [0x1.a8c1f14e2af5dp-145], about [3.72e-44]; at the infinities IEEE 754
    fixes [exp(-inf) = 0] and [exp(+inf) = +inf]. *)
Definition np_exp_table (x : float) : float :=
  if x =? -100 then 0x1.a8c1f14e2af5dp-145
  else if x =? neg_infinity then 0
  else if x =? infinity then infinity
  else nan.

End Binary64.

(** ** The libraries the repository calls *)

Import Py.

(** numpy arrays, scikit-learn and joblib, as far as the source uses them.
    An estimator is whatever object [self.model] holds. *)
Class Sklearn : Type := {
  estimator : Type;
  ndarray : Type;
  (** [IsolationForest(contamination, n_estimators, max_samples, random_state, n_jobs)] *)
  IsolationForest : R -> Z -> Z -> Z -> Z -> estimator;
  (** [np.array(rows)], [len(X)] and the rows [for sample in X] visits *)
  np_array : list (list pyval) -> result ndarray;
  np_len : ndarray -> Z;
  np_rows : ndarray -> list (list pyval);
  (** [train_test_split(X, test_size, random_state)] *)
  train_test_split : ndarray -> R -> Z -> result (ndarray * ndarray);
  (** [est.fit(X)] works on the estimator in place: outcome and estimator
      afterwards *)
  fit : estimator -> ndarray -> result unit * estimator;
  (** [est.predict(X)] and [est.score_samples(X)] *)
  model_predict : estimator -> ndarray -> result (list Z);
  score_samples : estimator -> ndarray -> result (list R);
  (** [precision_score(y_true, y_pred, zero_division)] and its siblings *)
  precision_score : list Z -> list Z -> Z -> result R;
  recall_score : list Z -> list Z -> Z -> result R;
  f1_score : list Z -> list Z -> Z -> result R;
  (** [confusion_matrix(y_true, y_pred).tolist()] *)
  confusion_matrix : list Z -> list Z -> result (list (list Z));
  (** [joblib.dump(est, filepath)] and [joblib.load(filepath)] *)
  joblib_dump : estimator -> string -> result unit;
  joblib_load : string -> result estimator
}.

(** The global numpy random generator. *)
Class NumpyRandom : Type := {
  rng : Type;
  (** [np.random.seed(s)]: the generator state it installs, or its error *)
  seed : Z -> result rng;
  (** [np.random.uniform(low, high)] *)
  uniform : R -> R -> rng -> R * rng;
  (** [np.random.shuffle(data)] *)
  shuffle : list pyval -> rng -> list pyval * rng
}.

(** [datetime] values, as far as [generate_time_series_data] uses them. *)
Class Datetime : Type := {
  datetime : Type;
  (** what [datetime.now()] returns in the run under study *)
  now : datetime;
  (** [t + timedelta(days=d, minutes=m)], which raises [OverflowError] when
      the delta or the sum is out of range; [t - timedelta(days=d)] is
      [plus_timedelta t (-d) 0] *)
  plus_timedelta : datetime -> Z -> Z -> result datetime;
  (** [t.hour] and [t.isoformat()] *)
  hour_of : datetime -> Z;
  isoformat : datetime -> string
}.

(** [np.sin] and [np.pi]: numpy's sine on doubles and the double nearest to
    pi.  They are not the real sine and the real pi: [np.sin(np.pi)] is
    about [1.22e-16], not 0. *)
Class NumpyMath : Type := {
  np_sin : R -> R;
  np_pi : R
}.

(** ** [models/isolation_forest.py] *)

Module isolation_forest.
Section WithSklearn.
Context {L : Sklearn}.
#[local] Open Scope py_scope.
#[local] Open Scope string_scope.

(** The dict stored in [self.validation_metrics] by [train]. *)
Record Metrics : Type := {
  precision : R;
  recall : R;
  f1 : R;
  cm : list (list Z);
  test_samples : Z
}.

(** The attributes of an [IsolationForestModel]; [validation_metrics] is
    [None] while it is the empty dict. *)
Record IsolationForestModel : Type := {
  model : estimator;
  is_trained : bool;
  training_samples : Z;
  validation_metrics : option Metrics
}.

Definition set_model (est : estimator) (self : IsolationForestModel) :=
  {| model := est;
     is_trained := is_trained self;
     training_samples := training_samples self;
     validation_metrics := validation_metrics self |}.

Definition set_is_trained (b : bool) (self : IsolationForestModel) :=
  {| model := model self;
     is_trained := b;
     training_samples := training_samples self;
     validation_metrics := validation_metrics self |}.

Definition set_training_samples (n : Z) (self : IsolationForestModel) :=
  {| model := model self;
     is_trained := is_trained self;
     training_samples := n;
     validation_metrics := validation_metrics self |}.

Definition set_validation_metrics (m : option Metrics) (self : IsolationForestModel) :=
  {| model := model self;
     is_trained := is_trained self;
     training_samples := training_samples self;
     validation_metrics := m |}.

Definition __init__ : IsolationForestModel :=
  {| model := IsolationForest 0.1 100 256 42 (-1);
     is_trained := false;
     training_samples := 0;
     validation_metrics := None |}.

(** [[d['voltage'], d['temperature'], d['power_output']]] *)
Definition feature_row (d : pyval) : result (list pyval) :=
  v <- py_getitem d "voltage" ;;
  t <- py_getitem d "temperature" ;;
  p <- py_getitem d "power_output" ;;
  ret [v; t; p].

(** A row of the feature matrix lists voltage, temperature and power, in
    this order. *)
Definition columns (d : pyval) (row : list pyval) : Prop :=
  exists v t p,
    py_getitem d "voltage" = inr v /\
    py_getitem d "temperature" = inr t /\
    py_getitem d "power_output" = inr p /\
    row = [v; t; p].

(** The argument of [np.array] in [train]. *)
Definition feature_rows (training_data : pyval) : result (list (list pyval)) :=
  ds <- py_iter training_data ;;
  mapM feature_row ds.

(** [-1 if (sample[0] < 10 or sample[1] > 40 or sample[2] < 100) else 1];
    [or] evaluates its right operand only when the left one is false. *)
Definition heuristic_label (sample : list pyval) : result Z :=
  s0 <- index sample 0 ;;
  c0 <- py_lt s0 10 ;;
  if (c0 : bool) then ret (-1)%Z else
  s1 <- index sample 1 ;;
  c1 <- py_gt s1 40 ;;
  if (c1 : bool) then ret (-1)%Z else
  s2 <- index sample 2 ;;
  c2 <- py_lt s2 100 ;;
  ret (if (c2 : bool) then (-1)%Z else 1%Z).

(** The rule in the specification's words: a sample is a "true" anomaly
    when voltage < 10 or temperature > 40 or power < 100, the three being
    columns 0, 1 and 2 of the sample. *)
Definition cell_lt (sample : list pyval) (i : nat) (c : R) : Prop :=
  exists cell x, nth_error sample i = Some cell /\ num_of cell = Some x /\ x < c.

Definition cell_gt (sample : list pyval) (i : nat) (c : R) : Prop :=
  exists cell x, nth_error sample i = Some cell /\ num_of cell = Some x /\ c < x.

Definition heuristic_anomaly (sample : list pyval) : Prop :=
  cell_lt sample 0 10 \/ cell_gt sample 1 40 \/ cell_lt sample 2 100.

(** [(y == -1).astype(int)] *)
Definition binary (y : list Z) : list Z :=
  map (fun v => if (v =? -1)%Z then 1%Z else 0%Z) y.

(** [self.model.fit(X_train)] *)
Definition self_model_fit (X_train : ndarray) : M IsolationForestModel unit :=
  fun self =>
    let (r, est) := fit (model self) X_train in (r, set_model est self).

(** [train]; the [except] clause logs and re-raises, which changes neither
    the outcome nor [self]. *)
Definition train (training_data : pyval) : M IsolationForestModel Metrics :=
  rows <- lift (feature_rows training_data) ;;
  X <- lift (np_array rows) ;;
  modify (set_training_samples (np_len X)) ;;;
  split <- lift (train_test_split X 0.2 42) ;;
  let X_train := fst split in
  let X_test := snd split in
  self_model_fit X_train ;;;
  modify (set_is_trained true) ;;;
  self <- get ;;
  y_pred <- lift (model_predict (model self) X_test) ;;
  y_true <- lift (mapM heuristic_label (np_rows X_test)) ;;
  let y_true_binary := binary y_true in
  let y_pred_binary := binary y_pred in
  precision <- lift (precision_score y_true_binary y_pred_binary 0) ;;
  recall <- lift (recall_score y_true_binary y_pred_binary 0) ;;
  f1 <- lift (f1_score y_true_binary y_pred_binary 0) ;;
  cm <- lift (confusion_matrix y_true_binary y_pred_binary) ;;
  let metrics :=
    {| precision := precision;
       recall := recall;
       f1 := f1;
       cm := cm;
       test_samples := np_len X_test |} in
  modify (set_validation_metrics (Some metrics)) ;;;
  ret metrics.

(** The dict [predict] returns. *)
Definition prediction_result (label : string) (confidence anomaly_score : R) : pyval :=
  PDict [("prediction", PStr label);
         ("confidence", PFloat confidence);
         ("model_version", PStr "v1.0-isolation-forest");
         ("anomaly_score", PFloat anomaly_score)].

Definition predict (voltage temperature power_output : pyval)
  : M IsolationForestModel pyval :=
  self <- get ;;
  if negb (is_trained self)
  then throw (Raise "Exception" "Model not trained. Call train() first.") else
  X <- lift (np_array [[voltage; temperature; power_output]]) ;;
  labels <- lift (model_predict (model self) X) ;;
  prediction_value <- lift (index labels 0) ;;
  scores <- lift (score_samples (model self) X) ;;
  anomaly_score <- lift (index scores 0) ;;
  let confidence := Confidence._calculate_confidence anomaly_score in
  let prediction_label :=
    if (prediction_value =? 1)%Z then "Normal" else "Failure Likely" in
  ret (prediction_result prediction_label confidence anomaly_score).

Definition save_model (filepath : string) : M IsolationForestModel unit :=
  self <- get ;;
  if negb (is_trained self) then throw (Raise "Exception" "Cannot save untrained model") else
  lift (joblib_dump (model self) filepath).

Definition load_model (filepath : string) : M IsolationForestModel unit :=
  loaded <- lift (joblib_load filepath) ;;
  modify (set_model loaded) ;;;
  modify (set_is_trained true).

(** A reading [train] can take its three features from: a dict holding the
    three keys, whatever the values are. *)
Definition well_formed (d : pyval) : Prop :=
  exists kv v t p,
    d = PDict kv /\
    assoc "voltage" kv = Some v /\
    assoc "temperature" kv = Some t /\
    assoc "power_output" kv = Some p.

(** [self.validation_metrics] as the dict it is. *)
Definition metrics_dict (m : option Metrics) : pyval :=
  match m with
  | None => PDict []
  | Some m =>
      PDict [("precision", PFloat (precision m));
             ("recall", PFloat (recall m));
             ("f1_score", PFloat (f1 m));
             ("confusion_matrix", PList (map (fun row => PList (map PInt row)) (cm m)));
             ("test_samples", PInt (test_samples m))]
  end.

(** [get_info] reads [self] and returns a fresh dict. *)
Definition get_info (self : IsolationForestModel) : pyval :=
  PDict [("model_type", PStr "Isolation Forest");
         ("is_trained", PBool (is_trained self));
         ("training_samples", PInt (training_samples self));
         ("hyperparameters",
           PDict [("contamination", PFloat 0.1);
                  ("n_estimators", PInt 100);
                  ("max_samples", PInt 256)]);
         ("validation_metrics", metrics_dict (validation_metrics self));
         ("version", PStr "v1.0");
         ("limitations",
           PList [PStr "Trained on synthetic data only";
                  PStr "Real-world validation pending";
                  PStr "May not capture all failure modes";
                  PStr "Edge cases (theft, vandalism) not included"])].

End WithSklearn.
End isolation_forest.

(** ** [data/generate_training_data.py] *)

Module generate_training_data.

(** The four regimes and the closed intervals the module docstring documents
    for each (voltage, temperature, power). *)
Inductive regime : Type := Normal | Dust | Overheat | VoltageDrop.

Record box : Type := {
  v_lo : R; v_hi : R;
  t_lo : R; t_hi : R;
  p_lo : R; p_hi : R
}.

Definition documented (r : regime) : box :=
  match r with
  | Normal =>
      {| v_lo := 11.5; v_hi := 12.5; t_lo := 25; t_hi := 35; p_lo := 180; p_hi := 220 |}
  | Dust =>
      {| v_lo := 10.5; v_hi := 11.5; t_lo := 30; t_hi := 38; p_lo := 120; p_hi := 170 |}
  | Overheat =>
      {| v_lo := 10; v_hi := 11; t_lo := 40; t_hi := 48; p_lo := 100; p_hi := 150 |}
  | VoltageDrop =>
      {| v_lo := 9; v_hi := 10.5; t_lo := 25; t_hi := 35; p_lo := 80; p_hi := 130 |}
  end.

(** [{'voltage': v, 'temperature': t, 'power_output': p}] *)
Definition reading (v t p : R) : pyval :=
  PDict [("voltage"%string, PFloat v);
         ("temperature"%string, PFloat t);
         ("power_output"%string, PFloat p)].

Definition in_box (b : box) (d : pyval) : Prop :=
  exists v t p,
    d = reading v t p /\
    v_lo b <= v <= v_hi b /\ t_lo b <= t <= t_hi b /\ p_lo b <= p <= p_hi b.

Definition box_of (vlo vhi tlo thi plo phi : R) : box :=
  {| v_lo := vlo; v_hi := vhi; t_lo := tlo; t_hi := thi; p_lo := plo; p_hi := phi |}.

(** [for _ in range(n): body] on the variables the body updates. *)
Fixpoint for_range {S : Type} (n : nat) (body : S -> S) (s : S) : S :=
  match n with
  | O => s
  | Datatypes.S n' => for_range n' body (body s)
  end.

Definition num_normal (num_samples : Z) : Z := py_int (IZR num_samples * 0.90).
Definition num_dust (num_samples : Z) : Z := py_int (IZR num_samples * 0.05).
Definition num_overheat (num_samples : Z) : Z := py_int (IZR num_samples * 0.03).
Definition num_voltage_drop (num_samples : Z) : Z :=
  (num_samples - num_normal num_samples - num_dust num_samples
     - num_overheat num_samples)%Z.

Section WithRandom.
Context {G : NumpyRandom}.
#[local] Open Scope py_scope.

(** One [data.append({...})]: the three draws are made in the order the
    dict display lists them. *)
Definition append_reading (vlo vhi tlo thi plo phi : R)
    (s : list pyval * rng) : list pyval * rng :=
  let (data, g) := s in
  let (v, g1) := uniform vlo vhi g in
  let (t, g2) := uniform tlo thi g1 in
  let (p, g3) := uniform plo phi g2 in
  (data ++ [reading v t p], g3).

(** [data] and the generator state when the four loops are done. *)
Definition unshuffled (num_samples : Z) (g : rng) : list pyval * rng :=
  let data := [] in
  let s := for_range (range_len (num_normal num_samples))
             (append_reading 11.5 12.5 25 35 180 220) (data, g) in
  let s := for_range (range_len (num_dust num_samples))
             (append_reading 10.5 11.5 30 38 120 170) s in
  let s := for_range (range_len (num_overheat num_samples))
             (append_reading 10.0 11.0 40 48 100 150) s in
  for_range (range_len (num_voltage_drop num_samples))
    (append_reading 9.0 10.5 25 35 80 130) s.

Definition generate_synthetic_data (num_samples random_seed : Z)
  : result (list pyval) :=
  g <- seed random_seed ;;
  let (data, g) := unshuffled num_samples g in
  let (data, _) := shuffle data g in
  ret data.

End WithRandom.

(** *** [generate_time_series_data] *)

(** [{'timestamp': ts, 'voltage': v, 'temperature': t, 'power_output': p}] *)
Definition timed_reading (ts : string) (v t p : R) : pyval :=
  PDict [("timestamp"%string, PStr ts);
         ("voltage"%string, PFloat v);
         ("temperature"%string, PFloat t);
         ("power_output"%string, PFloat p)].

(** The values [for i in range(n)] visits. *)
Definition py_range (n : Z) : list Z := map Z.of_nat (seq 0 (range_len n)).

(** [for i in l: body] where the body may raise. *)
Fixpoint for_in {S : Type} (l : list Z) (body : Z -> S -> result S) (s : S)
  : result S :=
  match l with
  | [] => inr s
  | i :: l' =>
      match body i s with
      | inl e => inl e
      | inr s' => for_in l' body s'
      end
  end.

(** [1 - (day / num_days) * 0.05] *)
Definition degradation_factor (day num_days : Z) : R :=
  1 - (IZR day / IZR num_days) * 0.05.

Section WithRandomAndClock.
Context {G : NumpyRandom} {D : Datetime} {Mth : NumpyMath}.
#[local] Open Scope py_scope.

(** [time_factor] after its two assignments. *)
Definition time_factor (hour : Z) : R :=
  let time_factor :=
    if ((6 <=? hour) && (hour <=? 18))%Z
    then np_sin (IZR (hour - 6) * np_pi / 12) else 0 in
  Rmax 0 time_factor.


(** The dates of one run: the start date and the timestamp of every tick of
    every day can be formed. *)
Definition run_dates_ok (num_days readings_per_day : Z) (start_time : datetime)
  : Prop :=
  plus_timedelta now (- num_days) 0 = inr start_time /\
  forall day reading,
    (0 <= day < num_days)%Z -> (0 <= reading < readings_per_day)%Z ->
    exists ts, plus_timedelta start_time day (reading * 5) = inr ts.

(** The body of the inner loop. *)
Definition append_timed_reading (start_time : datetime) (num_days day reading : Z)
    (s : list pyval * rng) : result (list pyval * rng) :=
  let (data, g) := s in
  timestamp <- plus_timedelta start_time day (reading * 5) ;;
  let hour := hour_of timestamp in
  let time_factor := time_factor hour in
  let degradation_factor := degradation_factor day num_days in
  let base_power := 200 * time_factor * degradation_factor in
  let ts := isoformat timestamp in
  let (v, g1) := uniform 11.5 12.5 g in
  let (t, g2) := uniform 25 35 g1 in
  let (p, g3) := uniform (-10) 10 g2 in
  ret (data ++ [timed_reading ts
                  (v * degradation_factor)
                  (t + IZR (hour - 12) * 0.5)
                  (base_power + p)], g3).

Definition generate_time_series_data (num_days readings_per_day : Z)
  : result (list pyval) :=
  g <- seed 42 ;;
  let data := [] in
  start_time <- plus_timedelta now (- num_days) 0 ;;
  s <- for_in (py_range num_days)
         (fun day =>
            for_in (py_range readings_per_day)
              (fun reading => append_timed_reading start_time num_days day reading))
         (data, g) ;;
  ret (fst s).

End WithRandomAndClock.
End generate_training_data.

(** ** [server.py] *)

Module server.
Section WithSklearn.
Context {L : Sklearn}.
Import isolation_forest.
#[local] Open Scope py_scope.
#[local] Open Scope string_scope.

(** What a handler reads of the request: the outcome of
    [request.get_json()]. *)
Record Request : Type := { get_json : result pyval }.

(** [jsonify(body), status] *)
Definition Response : Type := (pyval * Z)%type.

Definition status (r : Response) : Z := snd r.

(** The module-level [model]: [None] when the constructor raised. *)
Definition Server : Type := option IsolationForestModel.

(** A method call [model.name(...)] on the global. *)
Definition on_model {A : Type} (name : string) (c : M IsolationForestModel A)
  : M Server A :=
  fun model =>
    match model with
    | None =>
        (inl (Raise "AttributeError"
                ("'NoneType' object has no attribute '" ++ name ++ "'")), None)
    | Some self => let (r, self') := c self in (r, Some self')
    end.

Definition error (msg : string) : pyval := PDict [("error", PStr msg)].

Definition failure (what : string) (e : exn) : pyval :=
  PDict [("error", PStr what); ("message", PStr (py_str e))].

(** The body of the [try] in [predict]. *)
Definition predict_try (request : Request) : M Server Response :=
  data <- lift (get_json request) ;;
  if negb (truthy data) then ret (error "No JSON data provided", 400%Z) else
  voltage <- lift (py_get data "voltage") ;;
  temperature <- lift (py_get data "temperature") ;;
  power_output <- lift (py_get data "power_output") ;;
  if is_None voltage || is_None temperature || is_None power_output
  then ret (error "Missing required fields: voltage, temperature, power_output", 400%Z)
  else
  (* the three range tests only log a warning *)
  lift (py_between 8 voltage 14) ;;;
  lift (py_between 15 temperature 50) ;;;
  lift (py_between 0 power_output 300) ;;;
  model <- get ;;
  match model with
  | None => ret (error "Model not trained. Run training first.", 500%Z)
  | Some self =>
      if negb (is_trained self)
      then ret (error "Model not trained. Run training first.", 500%Z)
      else
        prediction_result <-
          on_model "predict" (isolation_forest.predict voltage temperature power_output) ;;
        ret (prediction_result, 200%Z)
  end.

(** [POST /predict] *)
Definition predict (request : Request) (model : Server) : Response * Server :=
  match predict_try request model with
  | (inr response, model') => (response, model')
  | (inl e, model') => ((failure "Prediction failed" e, 500%Z), model')
  end.

(** [not training_data or len(training_data) < 100] *)
Definition too_few (training_data : pyval) : result bool :=
  if negb (truthy training_data) then ret true else
  n <- py_len training_data ;;
  ret (n <? 100)%Z.

(** The body of the [try] in [retrain]. *)
Definition retrain_try (request : Request) : M Server Response :=
  data <- lift (get_json request) ;;
  training_data <- lift (py_get data "training_data") ;;
  reject <- lift (too_few training_data) ;;
  if (reject : bool) then ret (error "Need at least 100 training samples", 400%Z) else
  on_model "train" (train training_data) ;;;
  n <- lift (py_len training_data) ;;
  ret (PDict [("status", PStr "success");
              ("training_samples", PInt n);
              ("message", PStr "Model retrained successfully")], 200%Z).

(** [POST /retrain] *)
Definition retrain (request : Request) (model : Server) : Response * Server :=
  match retrain_try request model with
  | (inr response, model') => (response, model')
  | (inl e, model') => ((failure "Retraining failed" e, 500%Z), model')
  end.

(** A JSON object lacks a required field of [/predict] when the key is
    absent or its value is [null]. *)
Definition required : list string := ["voltage"; "temperature"; "power_output"].

Definition missing_field (d : list (string * pyval)) : Prop :=
  exists key, In key required /\ (assoc key d = None \/ assoc key d = Some PNone).

(** What [/retrain] rejects as too little data: a false value, or a sized
    value of fewer than 100 items. *)
Definition short (training_data : pyval) : Prop :=
  truthy training_data = false \/
  exists n, py_len training_data = inr n /\ (n < 100)%Z.

(** [GET /health] *)
Definition health_check (model : Server) : Response * Server :=
  let trained :=
    match model with Some self => is_trained self | None => false end in
  (PDict [("status", PStr (if trained then "ok" else "error"));
          ("model_trained", PBool trained);
          ("model_version", PStr "v1.0-isolation-forest");
          ("training_samples",
            PInt (match model with Some self => training_samples self | None => 0%Z end))],
   200%Z, model).

(** [GET /model/info] *)
Definition model_info (model : Server) : Response * Server :=
  match model with
  | None => ((error "Model not initialized", 500%Z), model)
  | Some self => ((get_info self, 200%Z), model)
  end.

(** One request to the service. *)
Inductive Call : Type :=
| Health
| Predict (request : Request)
| Retrain (request : Request)
| Info.

Definition handle (c : Call) (model : Server) : Response * Server :=
  match c with
  | Health => health_check model
  | Predict request => predict request model
  | Retrain request => retrain request model
  | Info => model_info model
  end.

(** The state after a sequence of requests, served one after the other. *)
Fixpoint serve (calls : list Call) (model : Server) : Server :=
  match calls with
  | [] => model
  | c :: calls' => serve calls' (snd (handle c model))
  end.

End WithSklearn.

Section Startup.
Context {L : Sklearn} {G : NumpyRandom}.
Import isolation_forest.

(** The training step of the [__main__] block: an exception of the generator
    or of [train] is logged and the server starts all the same. *)
Definition startup (model : Server) : Server :=
  match model with
  | None => None
  | Some self =>
      match generate_training_data.generate_synthetic_data 10000 42 with
      | inl _ => Some self
      | inr training_data => Some (snd (train (PList training_data) self))
      end
  end.

End Startup.
End server.

(** ** Concrete libraries

    Small executable instances of the two interfaces, used to run the model on
    concrete inputs. *)

Module Instances.
#[local] Open Scope string_scope.

Definition numeric (c : pyval) : bool :=
  match num_of c with Some _ => true | None => false end.

(** A two-dimensional array: its rows, and whether its dtype is numeric,
    which numpy decides for the array as a whole. *)
Record array : Type := {
  numeric_dtype : bool;
  array_rows : list (list pyval)
}.

Definition is_sequence (c : pyval) : bool :=
  match c with PList _ => true | _ => false end.

(** [np.array] refuses rows of unequal lengths and cells that are lists (an
    inhomogeneous shape); the dtype is numeric when every cell is a
    number. *)
Definition make_array (rows : list (list pyval)) : result array :=
  let width := match rows with [] => 0%nat | row :: _ => List.length row end in
  if forallb (fun row => Nat.eqb (List.length row) width) rows
     && negb (existsb (existsb is_sequence) rows)
  then inr {| numeric_dtype := forallb (forallb numeric) rows; array_rows := rows |}
  else raise (Raise "ValueError"
                "setting an array element with a sequence. The requested array has an inhomogeneous shape").

(** The last fifth of the rows (rounded up) is the test split; an empty
    training part is an error. *)
Definition split_rows (X : array) : result (array * array) :=
  let n := List.length (array_rows X) in
  let n_test := ((n + 4) / 5)%nat in
  if Nat.eqb (n - n_test) 0
  then raise (Raise "ValueError" "the resulting train set will be empty")
  else inr ({| numeric_dtype := numeric_dtype X;
               array_rows := firstn (n - n_test) (array_rows X) |},
            {| numeric_dtype := numeric_dtype X;
               array_rows := skipn (n - n_test) (array_rows X) |}).

Definition not_numeric {A : Type} : result A :=
  raise (Raise "ValueError" "could not convert string to float").

(** An estimator that remembers the rows it was fitted on and rejects, as
    scikit-learn's input validation does, an array whose dtype is not
    numeric -- before it changes anything. *)
#[local] Instance rows_lib : Sklearn := {
  estimator := list (list pyval);
  ndarray := array;
  IsolationForest _ _ _ _ _ := [];
  np_array rows := make_array rows;
  np_len X := Z.of_nat (List.length (array_rows X));
  np_rows X := array_rows X;
  train_test_split X _ _ := split_rows X;
  fit est X :=
    if numeric_dtype X then (inr tt, array_rows X) else (not_numeric, est);
  model_predict _ X :=
    if numeric_dtype X then inr (map (fun _ => 1%Z) (array_rows X)) else not_numeric;
  score_samples _ X :=
    if numeric_dtype X then inr (map (fun _ => 0) (array_rows X)) else not_numeric;
  precision_score _ _ _ := inr 0;
  recall_score _ _ _ := inr 0;
  f1_score _ _ _ := inr 0;
  confusion_matrix y_true _ := inr [[Z.of_nat (List.length y_true)]];
  joblib_dump _ _ := inr tt;
  joblib_load filepath :=
    if String.eqb filepath "model_isolation_forest.joblib" then inr []
    else raise (Raise "FileNotFoundError" filepath)
}.

(** A counter as generator state: draw number [g] falls [g mod 8] eighths
    of the way from [low] to [high]; a shuffle reverses. *)
#[local] Instance counter_rng : NumpyRandom := {
  rng := Z;
  seed s :=
    if ((0 <=? s) && (s <? 2 ^ 32))%Z then inr s
    else raise (Raise "ValueError" "Seed must be between 0 and 2**32 - 1");
  uniform low high g := (low + (high - low) * (IZR (g mod 8) / 8), (g + 1)%Z);
  shuffle data g := (rev data, (g + 1)%Z)
}.

(** Minutes since 0001-01-01 00:00 as [datetime], up to the end of the year
    9999; a sum outside this range raises, as [datetime] does.  The clock
    reads 10:00 on day 738000. *)
Definition max_minutes : Z := 3652059 * 1440.

#[local] Instance minute_clock : Datetime := {
  datetime := Z;
  now := (738000 * 1440 + 600)%Z;
  plus_timedelta t d m :=
    let t' := (t + d * 1440 + m)%Z in
    if ((0 <=? t') && (t' <? max_minutes))%Z then inr t'
    else raise (Raise "OverflowError" "date value out of range");
  hour_of t := ((t / 60) mod 24)%Z;
  isoformat t := "T"
}.

(** The sine, and for [np.pi] the double nearest to pi,
    [0x1.921fb54442d18p+1]. *)
#[local] Instance real_math : NumpyMath := {
  np_sin := sin;
  np_pi := 884279719003555 / 281474976710656
}.

Import isolation_forest generate_training_data.

(** Concrete inputs. *)
Definition bad_reading : pyval :=
  PDict [("voltage", PStr "n/a"); ("temperature", PFloat 30);
         ("power_output", PFloat 200)].

(** A hundred readings, the first with a string for its voltage. *)
Definition bad_training_data : pyval :=
  PList (bad_reading :: repeat (reading 12 30 200) 99).

Definition small_training_data : pyval :=
  PList (repeat (reading 9 30 200) 5).

(** A hundred well-formed readings. *)
Definition big_training_data : pyval :=
  PList (repeat (reading 9 30 200) 100).

(** A request body with the three fields holding numbers. *)
Definition numeric_body : list (string * pyval) :=
  [("voltage", PFloat 12); ("temperature", PFloat 28); ("power_output", PFloat 200)].

(** A model as it is after a successful training on 10000 rows. *)
Definition trained_model : IsolationForestModel (L := rows_lib) :=
  {| model := [[PFloat 12; PFloat 30; PFloat 200]];
     is_trained := true;
     training_samples := 10000;
     validation_metrics :=
       Some {| precision := 0; recall := 0; f1 := 0; cm := [[2000%Z]];
               test_samples := 2000 |} |}.

End Instances.

(** * Properties *)

(** ** Running the monads *)

Module PyFacts.

Lemma bind_inr {S A B : Type} (c : M S A) (k : A -> M S B) s b s' :
  bind c k s = (inr b, s') ->
  exists a s1, c s = (inr a, s1) /\ k a s1 = (inr b, s').
Proof.
  cbn. destruct (c s) as [[e | a] s1]; [discriminate|].
  intros H. exists a, s1. auto.
Qed.

Lemma bind_inl {S A B : Type} (c : M S A) (k : A -> M S B) s e s' :
  bind c k s = (inl e, s') ->
  c s = (inl e, s') \/ exists a s1, c s = (inr a, s1) /\ k a s1 = (inl e, s').
Proof.
  cbn. destruct (c s) as [[e1 | a] s1].
  - intros H. injection H as <- <-. left. reflexivity.
  - intros H. right. exists a, s1. auto.
Qed.

Lemma lift_run {S A : Type} (c : result A) (s : S) r s' :
  lift c s = (r, s') -> c = r /\ s' = s.
Proof. unfold lift. intros H. injection H as <- <-. auto. Qed.

Lemma modify_run {S : Type} (f : S -> S) (s : S) r s' :
  modify f s = (r, s') -> r = inr tt /\ s' = f s.
Proof. unfold modify. intros H. injection H as <- <-. auto. Qed.

Lemma get_run {S : Type} (s : S) r s' :
  get s = (r, s') -> r = inr s /\ s' = s.
Proof. unfold get. intros H. injection H as <- <-. auto. Qed.

Lemma ret_run {S A : Type} (a : A) (s : S) r s' :
  ret (m := M S) a s = (r, s') -> r = inr a /\ s' = s.
Proof. cbn. intros H. injection H as <- <-. auto. Qed.

Lemma result_bind_inr {A B : Type} (c : result A) (k : A -> result B) b :
  bind c k = inr b -> exists a, c = inr a /\ k a = inr b.
Proof. cbn. destruct c as [e | a]; [discriminate|]. intros H. exists a. auto. Qed.

Lemma mapM_Forall2 {A B : Type} (f : A -> result B) l l' :
  mapM f l = inr l' -> Forall2 (fun a b => f a = inr b) l l'.
Proof.
  revert l'. induction l as [| a l IH]; intros l' H; simpl in H.
  - injection H as <-. constructor.
  - destruct (f a) as [e | b] eqn:Hb; [discriminate|].
    destruct (mapM f l) as [e | bs]; [discriminate|].
    injection H as <-. constructor; auto.
Qed.

End PyFacts.

(** Successful step of a run: [H : bind c k s = (inr _, _)]. *)
Tactic Notation "run_ok" hyp(H) "as" ident(a) ident(s1) ident(Ha) :=
  apply PyFacts.bind_inr in H; destruct H as (a & s1 & Ha & H).

(** A step that raised or let the run continue. *)
Tactic Notation "run_err" hyp(H) "as" ident(a) ident(s1) ident(Ha) :=
  apply PyFacts.bind_inl in H; destruct H as [H | (a & s1 & Ha & H)].

Ltac run_inv H :=
  first
    [ apply PyFacts.lift_run in H
    | apply PyFacts.modify_run in H
    | apply PyFacts.get_run in H
    | apply PyFacts.ret_run in H ];
  let E := fresh "E" in destruct H as [H E]; subst.

(** ** The confidence mapping *)

Module ConfidenceFacts.
Import Confidence.

Lemma normalized_sigmoid s : 1 / (1 + exp (- s * 10)) = sigmoid (10 * s).
Proof. unfold sigmoid. do 3 f_equal. lra. Qed.

Lemma sigmoid_bounds x : 0 < sigmoid x < 1.
Proof.
  unfold sigmoid. pose proof (exp_pos (- x)) as He. split.
  - apply Rdiv_lt_0_compat; lra.
  - apply (Rmult_lt_reg_r (1 + exp (- x))); [lra|].
    unfold Rdiv. rewrite Rmult_assoc, Rinv_l by lra. lra.
Qed.

Lemma sigmoid_half_le x : 0 <= x -> 1 / 2 <= sigmoid x.
Proof.
  intros Hx. unfold sigmoid.
  assert (He : exp (- x) <= 1).
  { destruct Hx as [Hx | <-].
    - left. rewrite <- exp_0. apply exp_increasing. lra.
    - rewrite Ropp_0, exp_0. lra. }
  pose proof (exp_pos (- x)) as Hp.
  apply (Rmult_le_reg_r (1 + exp (- x))); [lra|].
  unfold Rdiv at 2. rewrite Rmult_assoc, Rinv_l by lra. lra.
Qed.

Lemma sigmoid_compl x : 1 - sigmoid x = sigmoid (- x).
Proof.
  unfold sigmoid. rewrite Ropp_involutive, exp_Ropp.
  pose proof (exp_pos x) as Hp. field. split; lra.
Qed.

Lemma unclamped_sigmoid s :
  unclamped s = if Rlt_dec s 0 then 1 - sigmoid (10 * s) else sigmoid (10 * s).
Proof. unfold unclamped. cbv zeta. rewrite normalized_sigmoid. reflexivity. Qed.

(** Both branches are the logistic function of [10 * |score|]. *)
Lemma unclamped_abs s : unclamped s = sigmoid (10 * Rabs s).
Proof.
  rewrite unclamped_sigmoid. destruct (Rlt_dec s 0) as [Hs | Hs].
  - rewrite sigmoid_compl, Rabs_left by assumption. f_equal. lra.
  - rewrite Rabs_right by lra. reflexivity.
Qed.

Lemma unclamped_bounds s : 1 / 2 <= unclamped s < 1.
Proof.
  rewrite unclamped_abs. pose proof (Rabs_pos s) as Ha. split.
  - apply sigmoid_half_le. lra.
  - apply sigmoid_bounds.
Qed.

Lemma clamp_id c : 0 <= c <= 1 -> clamp c = c.
Proof.
  intros [H0 H1]. unfold clamp.
  rewrite Rmin_right by assumption. apply Rmax_right. assumption.
Qed.

Lemma confidence_unclamped s : _calculate_confidence s = unclamped s.
Proof.
  change (_calculate_confidence s) with (clamp (unclamped s)).
  apply clamp_id. pose proof (unclamped_bounds s). lra.
Qed.

Lemma one_minus_sigmoid_lt x : 0 < x -> 1 - sigmoid x < 1 / x.
Proof.
  intros Hx. rewrite sigmoid_compl. unfold sigmoid. rewrite Ropp_involutive.
  assert (He : 1 + x < exp x) by (apply exp_ineq1; lra).
  unfold Rdiv. rewrite !Rmult_1_l.
  apply Rinv_lt_contravar; [nra | lra].
Qed.

Lemma confidence_zero : _calculate_confidence 0 = 1 / 2.
Proof.
  rewrite confidence_unclamped, unclamped_abs, Rabs_R0.
  unfold sigmoid. replace (- (10 * 0)) with 0 by lra. rewrite exp_0. lra.
Qed.

Lemma confidence_limit (eps : R) :
  0 < eps ->
  exists bound, forall s, bound < Rabs s -> Rabs (_calculate_confidence s - 1) < eps.
Proof.
  intros Heps. exists (1 / eps). intros s Hs.
  assert (Hinv : 0 < 1 / eps) by (apply Rdiv_lt_0_compat; lra).
  rewrite confidence_unclamped, unclamped_abs.
  pose proof (sigmoid_bounds (10 * Rabs s)) as [_ Hlt].
  assert (Hx : 0 < 10 * Rabs s) by lra.
  pose proof (one_minus_sigmoid_lt _ Hx) as Hb.
  assert (Hle : 1 / (10 * Rabs s) < eps).
  { apply (Rmult_lt_reg_r (10 * Rabs s)); [assumption|].
    unfold Rdiv. rewrite Rmult_assoc, Rinv_l by lra.
    assert (1 < eps * Rabs s).
    { apply (Rmult_lt_compat_l eps) in Hs; [|assumption].
      unfold Rdiv in Hs. rewrite Rmult_1_l, Rinv_r in Hs by lra. assumption. }
    nra. }
  apply Rabs_def1; lra.
Qed.

(** C1.  For every score [s], [_calculate_confidence] returns
    [sigmoid(10 s)] when [s >= 0] and [1 - sigmoid(10 s)] when [s < 0],
    clamped to [0, 1]; so the confidence lies in [0, 1], is exactly 0.5 at
    [s = 0], and tends to 1 as [|s|] grows, whatever the sign of [s]. *)
Theorem confidence_contract :
  (forall s, 0 <= s -> _calculate_confidence s = clamp (sigmoid (10 * s))) /\
  (forall s, s < 0 -> _calculate_confidence s = clamp (1 - sigmoid (10 * s))) /\
  (forall s, 0 <= _calculate_confidence s <= 1) /\
  _calculate_confidence 0 = 0.5 /\
  (forall eps, 0 < eps ->
     exists bound, forall s,
       bound < Rabs s -> Rabs (_calculate_confidence s - 1) < eps).
Proof.
  split; [|split; [|split; [|split]]].
  - intros s Hs. change (_calculate_confidence s) with (clamp (unclamped s)).
    rewrite unclamped_sigmoid. destruct (Rlt_dec s 0); [lra | reflexivity].
  - intros s Hs. change (_calculate_confidence s) with (clamp (unclamped s)).
    rewrite unclamped_sigmoid. destruct (Rlt_dec s 0); [reflexivity | lra].
  - intros s. rewrite confidence_unclamped. pose proof (unclamped_bounds s). lra.
  - rewrite confidence_zero. lra.
  - exact confidence_limit.
Qed.

(** C9, as the code has it.  For every score the confidence is at least 0.5
    and at most 1, so it never falls in [0, 0.5), and the final clamp to
    [0, 1] returns the value it is given.  (In exact arithmetic the value
    stays below 1, see [unclamped_bounds]; the doubles the code computes
    with reach 1.) *)
Theorem confidence_at_least_half (s : R) :
  0.5 <= _calculate_confidence s <= 1 /\
  ~ (0 <= _calculate_confidence s < 0.5) /\
  clamp (unclamped s) = unclamped s /\
  _calculate_confidence s = unclamped s.
Proof.
  pose proof (unclamped_bounds s) as Hb.
  rewrite confidence_unclamped.
  repeat split; try lra.
  apply clamp_id. lra.
Qed.

End ConfidenceFacts.

(** ** The synthetic data generator *)

Module generate_training_data_facts.
Import generate_training_data.

(** [int()] of a non-negative float is its floor. *)
Lemma py_int_nonneg (x : R) : 0 <= x -> py_int x = Int_part x.
Proof. intros Hx. unfold py_int. destruct (Rle_dec 0 x); [reflexivity | contradiction]. Qed.

Lemma Int_part_floor (x : R) : IZR (Int_part x) <= x < IZR (Int_part x) + 1.
Proof. destruct (base_Int_part x). lra. Qed.

Lemma Int_part_nonneg (x : R) : 0 <= x -> (0 <= Int_part x)%Z.
Proof.
  intros Hx. destruct (Int_part_floor x) as [_ Hu].
  assert (H : -1 < IZR (Int_part x)) by lra.
  apply lt_IZR in H. lia.
Qed.

(** The floor of [k * N / 100], in integer arithmetic. *)
Lemma Int_part_percent (k N : Z) (c : R) :
  c * 100 = IZR k -> Int_part (IZR N * c) = (k * N / 100)%Z.
Proof.
  intros Hc. symmetry. apply Int_part_spec.
  assert (Hr : IZR N * c * 100 = IZR (k * N)) by (rewrite mult_IZR; nra).
  remember (k * N)%Z as m eqn:Em. clear Em.
  assert (H1 : (100 * (m / 100) <= m)%Z) by (apply Z.mul_div_le; lia).
  assert (H2 : (m < 100 * (m / 100) + 100)%Z).
  { pose proof (Z.div_mod m 100 ltac:(lia)).
    pose proof (Z.mod_pos_bound m 100 ltac:(lia)). lia. }
  apply IZR_le in H1. apply IZR_lt in H2.
  rewrite plus_IZR, mult_IZR in H2. rewrite mult_IZR in H1.
  lra.
Qed.

Lemma counts_nonneg (N : Z) :
  (0 <= N)%Z ->
  num_normal N = Int_part (IZR N * 0.90) /\
  num_dust N = Int_part (IZR N * 0.05) /\
  num_overheat N = Int_part (IZR N * 0.03) /\
  (0 <= num_normal N)%Z /\ (0 <= num_dust N)%Z /\ (0 <= num_overheat N)%Z /\
  (0 <= num_voltage_drop N)%Z.
Proof.
  intros HN. apply IZR_le in HN.
  assert (Ha : 0 <= IZR N * 0.90) by nra.
  assert (Hb : 0 <= IZR N * 0.05) by nra.
  assert (Hc : 0 <= IZR N * 0.03) by nra.
  unfold num_voltage_drop, num_normal, num_dust, num_overheat.
  rewrite !py_int_nonneg by assumption.
  repeat split; try (apply Int_part_nonneg; assumption).
  pose proof (Int_part_floor (IZR N * 0.90)) as [Ha' _].
  pose proof (Int_part_floor (IZR N * 0.05)) as [Hb' _].
  pose proof (Int_part_floor (IZR N * 0.03)) as [Hc' _].
  apply le_IZR. rewrite !minus_IZR. lra.
Qed.

(** The three rounded counts in integer arithmetic. *)
Lemma counts_integer (N : Z) :
  (0 <= N)%Z ->
  num_normal N = (90 * N / 100)%Z /\
  num_dust N = (5 * N / 100)%Z /\
  num_overheat N = (3 * N / 100)%Z.
Proof.
  intros HN. destruct (counts_nonneg N HN) as (E1 & E2 & E3 & _).
  rewrite E1, E2, E3.
  repeat split; apply Int_part_percent; lra.
Qed.

(** Below zero [int()] rounds up, and none of the four loops runs. *)
Lemma counts_negative (N : Z) :
  (N < 0)%Z ->
  range_len (num_normal N) = 0%nat /\ range_len (num_dust N) = 0%nat /\
  range_len (num_overheat N) = 0%nat /\ range_len (num_voltage_drop N) = 0%nat.
Proof.
  intros HN. apply IZR_lt in HN.
  assert (Hint : forall c, 0 < c ->
            (py_int (IZR N * c) <= 0)%Z /\ IZR N * c <= IZR (py_int (IZR N * c))).
  { intros c Hc. unfold py_int.
    destruct (Rle_dec 0 (IZR N * c)) as [Hle | _]; [nra|].
    pose proof (Int_part_floor (- (IZR N * c))) as [Hlo _].
    assert (Hpos : (0 <= Int_part (- (IZR N * c)))%Z) by (apply Int_part_nonneg; nra).
    split; [lia|]. rewrite opp_IZR. lra. }
  destruct (Hint 0.90 ltac:(lra)) as [A1 A2].
  destruct (Hint 0.05 ltac:(lra)) as [B1 B2].
  destruct (Hint 0.03 ltac:(lra)) as [C1 C2].
  assert (D : (num_voltage_drop N <= 0)%Z).
  { unfold num_voltage_drop, num_normal, num_dust, num_overheat.
    apply le_IZR. rewrite !minus_IZR. lra. }
  unfold range_len, num_normal, num_dust, num_overheat. repeat split; lia.
Qed.

Section WithRandom.
Context {G : NumpyRandom}.

(** What numpy documents of the two random operations the generator uses. *)
Hypothesis uniform_range :
  forall low high g, low <= high -> low <= fst (uniform low high g) <= high.
Hypothesis shuffle_perm :
  forall data g, Permutation data (fst (shuffle data g)).

Lemma append_reading_spec vlo vhi tlo thi plo phi data g :
  vlo <= vhi -> tlo <= thi -> plo <= phi ->
  exists d g',
    append_reading vlo vhi tlo thi plo phi (data, g) = (data ++ [d], g') /\
    in_box (box_of vlo vhi tlo thi plo phi) d.
Proof.
  intros Hv Ht Hp. unfold append_reading.
  pose proof (uniform_range vlo vhi g Hv) as Bv.
  destruct (uniform vlo vhi g) as [v g1].
  pose proof (uniform_range tlo thi g1 Ht) as Bt.
  destruct (uniform tlo thi g1) as [t g2].
  pose proof (uniform_range plo phi g2 Hp) as Bp.
  destruct (uniform plo phi g2) as [p g3].
  exists (reading v t p), g3. split; [reflexivity|].
  exists v, t, p. simpl in *. auto.
Qed.

(** A loop appends exactly [n] readings, each inside the loop's intervals. *)
Lemma for_range_append_spec n vlo vhi tlo thi plo phi :
  vlo <= vhi -> tlo <= thi -> plo <= phi ->
  forall data g,
  exists block g',
    for_range n (append_reading vlo vhi tlo thi plo phi) (data, g)
      = (data ++ block, g') /\
    List.length block = n /\
    Forall (in_box (box_of vlo vhi tlo thi plo phi)) block.
Proof.
  intros Hv Ht Hp. induction n as [| n IH]; intros data g.
  - exists [], g. rewrite app_nil_r. simpl. auto.
  - destruct (append_reading_spec vlo vhi tlo thi plo phi data g Hv Ht Hp)
      as (d & g1 & Hstep & Hd).
    destruct (IH (data ++ [d]) g1) as (block & g' & Hloop & Hlen & Hall).
    exists (d :: block), g'. cbn [for_range]. rewrite Hstep, Hloop.
    rewrite <- app_assoc. simpl. repeat split; auto.
Qed.

Lemma in_box_weaken (b b' : box) d :
  v_lo b' <= v_lo b -> v_hi b <= v_hi b' ->
  t_lo b' <= t_lo b -> t_hi b <= t_hi b' ->
  p_lo b' <= p_lo b -> p_hi b <= p_hi b' ->
  in_box b d -> in_box b' d.
Proof.
  intros ? ? ? ? ? ? (v & t & p & -> & Hv & Ht & Hp).
  exists v, t, p. split; [reflexivity|]. repeat split; lra.
Qed.

(** The list before the shuffle: four consecutive blocks, one per loop. *)
Lemma unshuffled_blocks (N : Z) (g : rng) :
  exists normal dust overheat voltage_drop g',
    unshuffled N g = (normal ++ dust ++ overheat ++ voltage_drop, g') /\
    List.length normal = range_len (num_normal N) /\
    List.length dust = range_len (num_dust N) /\
    List.length overheat = range_len (num_overheat N) /\
    List.length voltage_drop = range_len (num_voltage_drop N) /\
    Forall (in_box (documented Normal)) normal /\
    Forall (in_box (documented Dust)) dust /\
    Forall (in_box (documented Overheat)) overheat /\
    Forall (in_box (documented VoltageDrop)) voltage_drop.
Proof.
  unfold unshuffled.
  destruct (for_range_append_spec (range_len (num_normal N))
              11.5 12.5 25 35 180 220 ltac:(lra) ltac:(lra) ltac:(lra) [] g)
    as (b1 & g1 & -> & L1 & F1).
  destruct (for_range_append_spec (range_len (num_dust N))
              10.5 11.5 30 38 120 170 ltac:(lra) ltac:(lra) ltac:(lra) ([] ++ b1) g1)
    as (b2 & g2 & -> & L2 & F2).
  destruct (for_range_append_spec (range_len (num_overheat N))
              10.0 11.0 40 48 100 150 ltac:(lra) ltac:(lra) ltac:(lra)
              (([] ++ b1) ++ b2) g2)
    as (b3 & g3 & -> & L3 & F3).
  destruct (for_range_append_spec (range_len (num_voltage_drop N))
              9.0 10.5 25 35 80 130 ltac:(lra) ltac:(lra) ltac:(lra)
              ((([] ++ b1) ++ b2) ++ b3) g3)
    as (b4 & g4 & -> & L4 & F4).
  exists b1, b2, b3, b4, g4. simpl. rewrite <- !app_assoc.
  repeat split; auto;
    match goal with
    | F : Forall _ ?b |- Forall _ ?b =>
        refine (Forall_impl _ _ F); intros d; apply in_box_weaken; simpl; lra
    end.
Qed.

Lemma generate_structure (N random_seed : Z) (g : rng) :
  seed random_seed = inr g ->
  exists data normal dust overheat voltage_drop,
    generate_synthetic_data N random_seed = inr data /\
    Permutation (normal ++ dust ++ overheat ++ voltage_drop) data /\
    List.length normal = range_len (num_normal N) /\
    List.length dust = range_len (num_dust N) /\
    List.length overheat = range_len (num_overheat N) /\
    List.length voltage_drop = range_len (num_voltage_drop N) /\
    Forall (in_box (documented Normal)) normal /\
    Forall (in_box (documented Dust)) dust /\
    Forall (in_box (documented Overheat)) overheat /\
    Forall (in_box (documented VoltageDrop)) voltage_drop.
Proof.
  intros Hseed.
  destruct (unshuffled_blocks N g)
    as (b1 & b2 & b3 & b4 & g' & Hun & Hrest).
  unfold generate_synthetic_data. rewrite Hseed. simpl. rewrite Hun.
  pose proof (shuffle_perm (b1 ++ b2 ++ b3 ++ b4) g') as Hperm.
  destruct (shuffle (b1 ++ b2 ++ b3 ++ b4) g') as [data g''].
  exists data, b1, b2, b3, b4. split; [reflexivity|]. split; [exact Hperm | exact Hrest].
Qed.

(** C2.  For a sample count [N >= 0] and a seed [np.random.seed] accepts,
    [generate_synthetic_data] returns exactly [N] readings: a permutation of
    [floor(0.90 N)] normal, [floor(0.05 N)] dust, [floor(0.03 N)] overheat
    readings and [N] minus these three counts voltage-drop readings, so the
    four counts add up to [N]. *)
Theorem generate_synthetic_data_counts (N random_seed : Z) (g : rng) :
  (0 <= N)%Z ->
  seed random_seed = inr g ->
  exists data normal dust overheat voltage_drop,
    generate_synthetic_data N random_seed = inr data /\
    Z.of_nat (List.length data) = N /\
    Permutation (normal ++ dust ++ overheat ++ voltage_drop) data /\
    Forall (in_box (documented Normal)) normal /\
    Forall (in_box (documented Dust)) dust /\
    Forall (in_box (documented Overheat)) overheat /\
    Forall (in_box (documented VoltageDrop)) voltage_drop /\
    Z.of_nat (List.length normal) = Int_part (0.90 * IZR N) /\
    Z.of_nat (List.length dust) = Int_part (0.05 * IZR N) /\
    Z.of_nat (List.length overheat) = Int_part (0.03 * IZR N) /\
    Z.of_nat (List.length voltage_drop) =
      (N - Int_part (0.90 * IZR N) - Int_part (0.05 * IZR N)
         - Int_part (0.03 * IZR N))%Z /\
    (Z.of_nat (List.length normal) + Z.of_nat (List.length dust)
       + Z.of_nat (List.length overheat)
       + Z.of_nat (List.length voltage_drop) = N)%Z.
Proof.
  intros HN Hseed.
  destruct (generate_structure N random_seed g Hseed)
    as (data & b1 & b2 & b3 & b4 & Hgen & Hperm & L1 & L2 & L3 & L4 & F1 & F2 & F3 & F4).
  destruct (counts_nonneg N HN) as (E1 & E2 & E3 & P1 & P2 & P3 & P4).
  unfold range_len in *.
  assert (Z1 : Z.of_nat (List.length b1) = num_normal N) by (rewrite L1; lia).
  assert (Z2 : Z.of_nat (List.length b2) = num_dust N) by (rewrite L2; lia).
  assert (Z3 : Z.of_nat (List.length b3) = num_overheat N) by (rewrite L3; lia).
  assert (Z4 : Z.of_nat (List.length b4) = num_voltage_drop N) by (rewrite L4; lia).
  rewrite (Rmult_comm 0.90), (Rmult_comm 0.05), (Rmult_comm 0.03).
  exists data, b1, b2, b3, b4.
  split; [exact Hgen|]. split.
  { rewrite <- (Permutation_length Hperm), !length_app, !Nat2Z.inj_add.
    rewrite Z1, Z2, Z3, Z4. unfold num_voltage_drop. lia. }
  split; [exact Hperm|].
  repeat (split; [assumption|]).
  rewrite Z1, Z2, Z3, Z4, <- E1, <- E2, <- E3.
  unfold num_voltage_drop. repeat split; lia.
Qed.



(** Why C2 asks for [N >= 0]: a negative count yields the empty list. *)
Lemma generate_synthetic_data_negative (N random_seed : Z) (g : rng) :
  (N < 0)%Z ->
  seed random_seed = inr g ->
  generate_synthetic_data N random_seed = inr [].
Proof.
  intros HN Hseed.
  destruct (generate_structure N random_seed g Hseed)
    as (data & b1 & b2 & b3 & b4 & Hgen & Hperm & L1 & L2 & L3 & L4 & _).
  destruct (counts_negative N HN) as (Z1 & Z2 & Z3 & Z4).
  rewrite Z1 in L1. rewrite Z2 in L2. rewrite Z3 in L3. rewrite Z4 in L4.
  apply length_zero_iff_nil in L1, L2, L3, L4. subst. cbn in Hperm.
  apply Permutation_nil in Hperm. subst. exact Hgen.
Qed.

End WithRandom.
End generate_training_data_facts.

(** ** [IsolationForestModel] *)

Module isolation_forest_facts.
Import isolation_forest.
#[local] Open Scope string_scope.

Lemma Rltb_true x y : Rltb x y = true <-> x < y.
Proof. unfold Rltb. destruct (Rlt_dec x y); split; intros; auto; discriminate. Qed.

Lemma Rltb_false x y : Rltb x y = false <-> ~ x < y.
Proof. unfold Rltb. destruct (Rlt_dec x y); split; intros; auto; try discriminate; contradiction. Qed.

Lemma index_inr {A : Type} (l : list A) i a :
  index l i = inr a -> nth_error l i = Some a.
Proof. unfold index. destruct (nth_error l i); [intros H; injection H as <-; reflexivity | discriminate]. Qed.

Lemma py_lt_inr cell c b :
  py_lt cell c = inr b -> exists x, num_of cell = Some x /\ b = Rltb x c.
Proof.
  unfold py_lt. destruct (num_of cell) as [x |]; [|discriminate].
  intros H. injection H as <-. eauto.
Qed.

Lemma py_gt_inr cell c b :
  py_gt cell c = inr b -> exists x, num_of cell = Some x /\ b = Rltb c x.
Proof.
  unfold py_gt. destruct (num_of cell) as [x |]; [|discriminate].
  intros H. injection H as <-. eauto.
Qed.

Lemma not_cell_lt sample i cell x c :
  nth_error sample i = Some cell -> num_of cell = Some x -> ~ x < c ->
  ~ cell_lt sample i c.
Proof.
  intros Hn Hx Hc (cell' & x' & Hn' & Hx' & Hlt). congruence.
Qed.

Lemma not_cell_gt sample i cell x c :
  nth_error sample i = Some cell -> num_of cell = Some x -> ~ c < x ->
  ~ cell_gt sample i c.
Proof.
  intros Hn Hx Hc (cell' & x' & Hn' & Hx' & Hlt). congruence.
Qed.

(** The label is [-1] exactly for the samples the rule calls anomalous, and
    [1] for the others. *)
Lemma heuristic_label_spec sample y :
  heuristic_label sample = inr y ->
  (heuristic_anomaly sample /\ y = (-1)%Z) \/
  (~ heuristic_anomaly sample /\ y = 1%Z).
Proof.
  unfold heuristic_label, heuristic_anomaly. intros H.
  apply PyFacts.result_bind_inr in H. destruct H as (s0 & H0 & H).
  apply PyFacts.result_bind_inr in H. destruct H as (c0 & C0 & H).
  apply index_inr in H0. apply py_lt_inr in C0. destruct C0 as (x0 & N0 & ->).
  destruct (Rltb x0 10) eqn:B0.
  { injection H as <-. left. split; [|reflexivity].
    left. exists s0, x0. rewrite Rltb_true in B0. auto. }
  apply PyFacts.result_bind_inr in H. destruct H as (s1 & H1 & H).
  apply PyFacts.result_bind_inr in H. destruct H as (c1 & C1 & H).
  apply index_inr in H1. apply py_gt_inr in C1. destruct C1 as (x1 & N1 & ->).
  destruct (Rltb 40 x1) eqn:B1.
  { injection H as <-. left. split; [|reflexivity].
    right. left. exists s1, x1. rewrite Rltb_true in B1. auto. }
  apply PyFacts.result_bind_inr in H. destruct H as (s2 & H2 & H).
  apply PyFacts.result_bind_inr in H. destruct H as (c2 & C2 & H).
  apply index_inr in H2. apply py_lt_inr in C2. destruct C2 as (x2 & N2 & ->).
  cbn in H. injection H as <-.
  rewrite Rltb_false in B0, B1.
  destruct (Rltb x2 100) eqn:B2.
  - left. split; [|reflexivity].
    right. right. exists s2, x2. rewrite Rltb_true in B2. auto.
  - right. split; [|reflexivity]. rewrite Rltb_false in B2.
    intros [A | [A | A]];
      [ eapply not_cell_lt in A | eapply not_cell_gt in A | eapply not_cell_lt in A ];
      eauto.
Qed.

Lemma feature_row_columns d row : feature_row d = inr row -> columns d row.
Proof.
  unfold feature_row. intros H.
  apply PyFacts.result_bind_inr in H. destruct H as (v & Hv & H).
  apply PyFacts.result_bind_inr in H. destruct H as (t & Ht & H).
  apply PyFacts.result_bind_inr in H. destruct H as (p & Hp & H).
  cbn in H. injection H as <-. exists v, t, p. auto.
Qed.

(** [(y == -1).astype(int)] flags the entries equal to [-1], one by one. *)
Lemma binary_flags (y : list Z) :
  Forall2 (fun v b => (v = (-1)%Z /\ b = 1%Z) \/ (v <> (-1)%Z /\ b = 0%Z))
          y (binary y).
Proof.
  induction y as [| v y IH]; cbn; constructor; [|exact IH].
  destruct (Z.eqb_spec v (-1)); auto.
Qed.

Section WithSklearn.
Context {L : Sklearn}.

Lemma self_model_fit_run X self r self' :
  self_model_fit X self = (r, self') ->
  exists est, fit (model self) X = (r, est) /\ self' = set_model est self.
Proof.
  unfold self_model_fit. destruct (fit (model self) X) as [r0 est].
  intros H. injection H as <- <-. eauto.
Qed.

(** C6.  When [train] returns, the feature rows list voltage, temperature
    and power in this order; the array was split with test size 0.2 and
    seed 42; the estimator now in [self] is the result of fitting on the
    training split; every sample of the test split is labelled [-1] exactly
    when voltage < 10 or temperature > 40 or power < 100 (and [1]
    otherwise); and precision, recall, F1 and the confusion matrix are
    computed, with [zero_division=0], from two 0/1 lists over the test
    split: the one with 1 exactly at the samples the rule calls anomalous,
    and the one with 1 exactly where the detector predicted [-1]. *)
Theorem train_success (training_data : pyval) (self self' : IsolationForestModel)
    (metrics : Metrics) :
  train training_data self = (inr metrics, self') ->
  exists ds rows X X_train X_test y_pred y_true y_true_binary y_pred_binary,
    py_iter training_data = inr ds /\
    Forall2 columns ds rows /\
    np_array rows = inr X /\
    train_test_split X 0.2 42 = inr (X_train, X_test) /\
    fit (model self) X_train = (inr tt, model self') /\
    model_predict (model self') X_test = inr y_pred /\
    Forall2 (fun sample y =>
               (heuristic_anomaly sample /\ y = (-1)%Z) \/
               (~ heuristic_anomaly sample /\ y = 1%Z))
            (np_rows X_test) y_true /\
    (* anomaly = 1, normal = 0, sample by sample *)
    Forall2 (fun sample b =>
               (heuristic_anomaly sample /\ b = 1%Z) \/
               (~ heuristic_anomaly sample /\ b = 0%Z))
            (np_rows X_test) y_true_binary /\
    Forall2 (fun y b => (y = (-1)%Z /\ b = 1%Z) \/ (y <> (-1)%Z /\ b = 0%Z))
            y_pred y_pred_binary /\
    precision_score y_true_binary y_pred_binary 0 = inr (precision metrics) /\
    recall_score y_true_binary y_pred_binary 0 = inr (recall metrics) /\
    f1_score y_true_binary y_pred_binary 0 = inr (f1 metrics) /\
    confusion_matrix y_true_binary y_pred_binary = inr (cm metrics) /\
    test_samples metrics = np_len X_test /\
    is_trained self' = true /\
    training_samples self' = np_len X /\
    validation_metrics self' = Some metrics.
Proof.
  unfold train. intros H.
  run_ok H as rows s1 Hrows. run_inv Hrows.
  run_ok H as X s1 HX. run_inv HX.
  run_ok H as u0 s1 Hn. run_inv Hn.
  run_ok H as split s1 Hsplit. run_inv Hsplit.
  cbv zeta in H.
  run_ok H as u1 s1 Hfit. apply self_model_fit_run in Hfit.
  destruct Hfit as (est & Hfit & ->). destruct u1.
  run_ok H as u2 s1 Ht. run_inv Ht.
  run_ok H as self0 s1 Hg. run_inv Hg. injection Hg as <-.
  run_ok H as y_pred s1 Hpred. run_inv Hpred.
  run_ok H as y_true s1 Htrue. run_inv Htrue.
  run_ok H as p s1 Hp. run_inv Hp.
  run_ok H as r s1 Hr. run_inv Hr.
  run_ok H as f s1 Hf. run_inv Hf.
  run_ok H as c s1 Hc. run_inv Hc.
  run_ok H as u3 s1 Hm. run_inv Hm.
  run_inv H. injection H as <-.
  unfold feature_rows in Hrows.
  apply PyFacts.result_bind_inr in Hrows. destruct Hrows as (ds & Hds & Hrows).
  assert (Hlabels :
            Forall2 (fun sample y =>
                       (heuristic_anomaly sample /\ y = (-1)%Z) \/
                       (~ heuristic_anomaly sample /\ y = 1%Z))
                    (np_rows (snd split)) y_true).
  { refine (Forall2_impl _ _ (PyFacts.mapM_Forall2 _ _ _ Htrue)).
    exact heuristic_label_spec. }
  exists ds, rows, X, (fst split), (snd split), y_pred, y_true,
         (binary y_true), (binary y_pred). cbn.
  repeat split; auto.
  - refine (Forall2_impl _ _ (PyFacts.mapM_Forall2 _ _ _ Hrows)).
    exact feature_row_columns.
  - rewrite Hsplit. destruct split; reflexivity.
  - clear - Hlabels. induction Hlabels as [| sample y samples ys Hy _ IH]; cbn.
    + constructor.
    + constructor; [|exact IH].
      destruct Hy as [[Ha ->] | [Ha ->]]; cbn; auto.
  - apply binary_flags.
Qed.

(** C3, as the code has it.  When [train] raises, [validation_metrics] is
    left as it was.  If the exception comes from reading the training data
    or building the array, nothing in [self] has changed.  If it comes from
    the split or from [fit], [is_trained] is as before but
    [training_samples] already holds the number of rows submitted.  If it
    comes later, after a successful [fit], [training_samples] holds that
    number, [is_trained] is true and the fitted estimator is in place. *)
Theorem train_failure (training_data : pyval) (self self' : IsolationForestModel)
    (e : exn) :
  train training_data self = (inl e, self') ->
  validation_metrics self' = validation_metrics self /\
  ( (self' = self /\
     (feature_rows training_data = inl e \/
      exists rows, feature_rows training_data = inr rows /\ np_array rows = inl e))
    \/
    (exists rows X,
       feature_rows training_data = inr rows /\ np_array rows = inr X /\
       training_samples self' = np_len X /\
       is_trained self' = is_trained self /\
       (train_test_split X 0.2 42 = inl e \/
        exists X_train X_test,
          train_test_split X 0.2 42 = inr (X_train, X_test) /\
          fit (model self) X_train = (inl e, model self')))
    \/
    (exists rows X X_train X_test,
       feature_rows training_data = inr rows /\ np_array rows = inr X /\
       train_test_split X 0.2 42 = inr (X_train, X_test) /\
       fit (model self) X_train = (inr tt, model self') /\
       training_samples self' = np_len X /\
       is_trained self' = true) ).
Proof.
  unfold train. intros H.
  run_err H as rows s1 Hrows.
  { run_inv H. split; [reflexivity|]. left. auto. }
  run_inv Hrows.
  run_err H as X s1 HX.
  { run_inv H. split; [reflexivity|]. left. split; [reflexivity|]. right. eauto. }
  run_inv HX.
  run_err H as u0 s1 Hn.
  { apply PyFacts.modify_run in H. destruct H as [H _]. discriminate. }
  run_inv Hn.
  run_err H as parts s1 Hsplit.
  { run_inv H. split; [reflexivity|]. right. left.
    exists rows, X. cbn. auto 10. }
  run_inv Hsplit. cbv zeta in H. destruct parts as [X_train X_test].
  run_err H as u1 s1 Hfit.
  { apply self_model_fit_run in H. destruct H as (est & Hfit & ->).
    split; [reflexivity|]. right. left.
    exists rows, X. cbn. repeat split; auto.
    right. exists X_train, X_test. auto. }
  apply self_model_fit_run in Hfit. destruct Hfit as (est & Hfit & ->). destruct u1.
  assert (Hlate : forall s : IsolationForestModel,
             s = set_is_trained true (set_model est (set_training_samples (np_len X) self)) ->
             validation_metrics s = validation_metrics self /\
             exists rows0 X0 X_train0 X_test0,
               feature_rows training_data = inr rows0 /\ np_array rows0 = inr X0 /\
               train_test_split X0 0.2 42 = inr (X_train0, X_test0) /\
               fit (model self) X_train0 = (inr tt, model s) /\
               training_samples s = np_len X0 /\
               is_trained s = true).
  { intros s ->. split; [reflexivity|].
    exists rows, X, X_train, X_test. cbn. auto 10. }
  assert (Hdone : validation_metrics self' = validation_metrics self /\
            exists rows0 X0 X_train0 X_test0,
               feature_rows training_data = inr rows0 /\ np_array rows0 = inr X0 /\
               train_test_split X0 0.2 42 = inr (X_train0, X_test0) /\
               fit (model self) X_train0 = (inr tt, model self') /\
               training_samples self' = np_len X0 /\
               is_trained self' = true);
    [| destruct Hdone as [Hvm Hrest]; split; [exact Hvm | right; right; exact Hrest] ].
  run_err H as u2 s1 Ht.
  { apply PyFacts.modify_run in H. destruct H as [H _]. discriminate. }
  run_inv Ht.
  run_err H as self0 s1 Hg.
  { apply PyFacts.get_run in H. destruct H as [H _]. discriminate. }
  run_inv Hg. injection Hg as <-.
  run_err H as y_pred s1 Hpred. { run_inv H. apply Hlate. reflexivity. }
  run_inv Hpred.
  run_err H as y_true s1 Htrue. { run_inv H. apply Hlate. reflexivity. }
  run_inv Htrue.
  run_err H as p s1 Hp. { run_inv H. apply Hlate. reflexivity. }
  run_inv Hp.
  run_err H as r s1 Hr. { run_inv H. apply Hlate. reflexivity. }
  run_inv Hr.
  run_err H as f s1 Hf. { run_inv H. apply Hlate. reflexivity. }
  run_inv Hf.
  run_err H as c s1 Hc. { run_inv H. apply Hlate. reflexivity. }
  run_inv Hc.
  run_err H as u3 s1 Hm.
  { apply PyFacts.modify_run in H. destruct H as [H _]. discriminate. }
  run_inv Hm.
  apply PyFacts.ret_run in H. destruct H as [H _]. discriminate.
Qed.

(** C4.  On a model whose [is_trained] is false -- one on which neither
    [train] nor [load_model] has succeeded -- [predict] raises
    [Exception("Model not trained. Call train() first.")] whatever the three
    arguments are, and leaves the model as it is. *)
Theorem predict_untrained (self : IsolationForestModel)
    (voltage temperature power_output : pyval) :
  is_trained self = false ->
  predict voltage temperature power_output self
    = (inl (Raise "Exception" "Model not trained. Call train() first."), self).
Proof.
  intros Hu. unfold predict. cbn. rewrite Hu. reflexivity.
Qed.

(** C8.  Whenever [joblib.load] returns an object, whatever it is,
    [load_model] stores it in [self.model] and sets [is_trained] to true:
    no test of the loaded object stands between the two assignments. *)
Theorem load_model_sets_trained (filepath : string) (loaded : estimator)
    (self : IsolationForestModel) :
  joblib_load filepath = inr loaded ->
  exists self',
    load_model filepath self = (inr tt, self') /\
    is_trained self' = true /\
    model self' = loaded /\
    training_samples self' = training_samples self /\
    validation_metrics self' = validation_metrics self.
Proof.
  intros Hload. unfold load_model. cbn. unfold lift. rewrite Hload. cbn.
  eexists. split; [reflexivity|]. cbn. auto.
Qed.

End WithSklearn.
End isolation_forest_facts.

(** ** The HTTP handlers *)

Module server_facts.
Import isolation_forest server.
#[local] Open Scope string_scope.

Section WithSklearn.
Context {L : Sklearn}.

(** A request whose three fields are present, the voltage being something
    that cannot be compared with a number: the presence test passes, the
    first range test raises [TypeError], and the handler answers 500. *)
Lemma predict_unorderable_voltage (d : list (string * pyval))
    (voltage temperature power_output : pyval) (model : Server) :
  d <> [] ->
  assoc "voltage" d = Some voltage ->
  assoc "temperature" d = Some temperature ->
  assoc "power_output" d = Some power_output ->
  is_None voltage || is_None temperature || is_None power_output = false ->
  num_of voltage = None ->
  predict_try {| get_json := inr (PDict d) |} model
    = (unorderable "<=" "int" (type_name voltage), model) /\
  status (fst (predict {| get_json := inr (PDict d) |} model)) = 500%Z /\
  snd (predict {| get_json := inr (PDict d) |} model) = model.
Proof.
  intros Hd Hv Ht Hp Hnone Hnum.
  assert (Htry : predict_try {| get_json := inr (PDict d) |} model
                 = (unorderable "<=" "int" (type_name voltage), model)).
  { unfold predict_try. cbn.
    destruct d as [| kv d']; [contradiction|]. cbn [negb].
    unfold py_get. rewrite Hv, Ht, Hp. cbn. rewrite Hnone.
    unfold py_between. rewrite Hnum. reflexivity. }
  split; [exact Htry|].
  unfold predict. rewrite Htry. cbn. auto.
Qed.

(** C10.  There is a [POST /predict] body holding all three fields, one of
    them a string, that is not answered with 400: the presence test lets it
    through, the range comparison raises, and the handler's [except] clause
    answers 500. *)
Theorem predict_string_field_500 :
  exists body : list (string * pyval),
    (exists voltage temperature power_output s,
       assoc "voltage" body = Some voltage /\
       assoc "temperature" body = Some temperature /\
       assoc "power_output" body = Some power_output /\
       is_None voltage || is_None temperature || is_None power_output = false /\
       voltage = PStr s /\ num_of voltage = None) /\
    forall model : Server,
      (exists msg,
         predict_try {| get_json := inr (PDict body) |} model
           = (inl (Raise "TypeError" msg), model)) /\
      status (fst (predict {| get_json := inr (PDict body) |} model)) = 500%Z /\
      status (fst (predict {| get_json := inr (PDict body) |} model)) <> 400%Z.
Proof.
  exists [("voltage", PStr "12.1"); ("temperature", PFloat 30); ("power_output", PFloat 200)].
  split.
  - exists (PStr "12.1"), (PFloat 30), (PFloat 200), "12.1". cbn. auto 10.
  - intros model.
    destruct (predict_unorderable_voltage
                [("voltage", PStr "12.1"); ("temperature", PFloat 30);
                 ("power_output", PFloat 200)]
                (PStr "12.1") (PFloat 30) (PFloat 200) model)
      as (Htry & Hst & _); try reflexivity; try discriminate.
    split; [|split].
    + eexists. rewrite Htry. reflexivity.
    + exact Hst.
    + rewrite Hst. discriminate.
Qed.

(** C7.  A [POST /retrain] whose [training_data] is an array of fewer than
    100 entries is answered with 400, whatever the entries are, and the
    model is left untouched: [train] is not called. *)
Theorem retrain_too_few (request : Request) (d : list (string * pyval))
    (entries : list pyval) (model : Server) :
  get_json request = inr (PDict d) ->
  assoc "training_data" d = Some (PList entries) ->
  (List.length entries < 100)%nat ->
  retrain request model
    = ((error "Need at least 100 training samples", 400%Z), model).
Proof.
  intros Hjson Hget Hlen.
  unfold retrain, retrain_try. cbn. unfold lift. rewrite Hjson. cbn.
  rewrite Hget. cbn.
  assert (Hfew : too_few (PList entries) = inr true).
  { unfold too_few. destruct entries as [| x entries']; [reflexivity|].
    cbn -[Z.ltb Z.of_nat]. f_equal. apply Z.ltb_lt.
    cbn [List.length] in Hlen |- *. lia. }
  rewrite Hfew. reflexivity.
Qed.

End WithSklearn.
End server_facts.

(** ** Runs on concrete inputs *)

Module Runs.
Import Instances isolation_forest generate_training_data server.
#[local] Open Scope string_scope.

Lemma counter_rng_uniform_range (low high : R) (g : Z) :
  low <= high -> low <= fst (uniform (NumpyRandom := counter_rng) low high g) <= high.
Proof.
  intros Hlh. cbn.
  pose proof (Z.mod_pos_bound g 8 ltac:(lia)) as [H0 H8].
  apply IZR_le in H0. apply IZR_lt in H8.
  assert (Hu : 0 <= IZR (g mod 8) / 8 <= 1) by (split; lra).
  split; nra.
Qed.

Lemma counter_rng_shuffle_perm (data : list pyval) (g : Z) :
  Permutation data (fst (shuffle (NumpyRandom := counter_rng) data g)).
Proof. cbn. apply Permutation_rev. Qed.

Lemma confidence_contract_witness :
  Confidence._calculate_confidence 1
    = Confidence.clamp (Confidence.sigmoid (10 * 1)) /\
  Confidence._calculate_confidence (-1)
    = Confidence.clamp (1 - Confidence.sigmoid (10 * -1)) /\
  exists bound, forall s,
    bound < Rabs s -> Rabs (Confidence._calculate_confidence s - 1) < 1 / 100.
Proof.
  destruct ConfidenceFacts.confidence_contract as (Hpos & Hneg & _ & _ & Hlim).
  split; [apply Hpos; lra|]. split; [apply Hneg; lra|]. apply Hlim; lra.
Defined.

Lemma generate_synthetic_data_counts_witness :
  exists data,
    generate_synthetic_data (G := counter_rng) 250 42 = inr data /\
    Z.of_nat (List.length data) = 250%Z.
Proof.
  destruct (generate_training_data_facts.generate_synthetic_data_counts
              (G := counter_rng) counter_rng_uniform_range counter_rng_shuffle_perm
              250 42 42%Z ltac:(lia) eq_refl)
    as (data & _ & _ & _ & _ & Hgen & Hlen & _).
  exists data. split; assumption.
Defined.


(** The run behind the counterexample and the witness of C3. *)
Lemma failed_train_run :
  train (L := rows_lib) bad_training_data trained_model
    = (inl (Raise "ValueError" "could not convert string to float"),
       set_training_samples 100 trained_model).
Proof. reflexivity. Qed.

Lemma train_failure_witness :
  validation_metrics (set_training_samples 100 trained_model)
    = validation_metrics trained_model /\
  is_trained (set_training_samples 100 trained_model) = is_trained trained_model.
Proof.
  destruct (isolation_forest_facts.train_failure (L := rows_lib)
              bad_training_data trained_model _ _ failed_train_run)
    as [Hvm _].
  split; [exact Hvm | reflexivity].
Defined.

(** C3, as stated, fails.  [POST /retrain] with a hundred readings, one of
    them with a string for its voltage, is answered 500 because [fit]
    rejects the matrix; the model was trained on 10000 rows and keeps its
    estimator, its [is_trained] and its metrics, but its [training_samples]
    is now 100. *)
Lemma train_failure_overwrites_training_samples :
  exists e self',
    train (L := rows_lib) bad_training_data trained_model = (inl e, self') /\
    retrain {| get_json := inr (PDict [("training_data", bad_training_data)]) |}
      (Some trained_model)
      = ((failure "Retraining failed" e, 500%Z), Some self') /\
    training_samples trained_model = 10000%Z /\
    training_samples self' = 100%Z /\
    training_samples self' <> training_samples trained_model.
Proof.
  exists (Raise "ValueError" "could not convert string to float"),
         (set_training_samples 100 trained_model).
  split; [exact failed_train_run|].
  split; [reflexivity|]. cbn. repeat split. discriminate.
Qed.

Lemma predict_untrained_witness :
  isolation_forest.predict (L := rows_lib) (PFloat 12) (PFloat 28) (PFloat 200) __init__
    = (inl (Raise "Exception" "Model not trained. Call train() first."), __init__).
Proof.
  apply isolation_forest_facts.predict_untrained. reflexivity.
Defined.

Lemma load_model_sets_trained_witness :
  exists self',
    load_model (L := rows_lib) "model_isolation_forest.joblib" __init__ = (inr tt, self') /\
    is_trained self' = true.
Proof.
  destruct (isolation_forest_facts.load_model_sets_trained (L := rows_lib)
              "model_isolation_forest.joblib" [] __init__ eq_refl)
    as (self' & Hrun & Htrained & _).
  exists self'. split; assumption.
Defined.

Lemma retrain_too_few_witness :
  retrain (L := rows_lib)
    {| get_json := inr (PDict [("training_data", small_training_data)]) |}
    (Some trained_model)
    = ((error "Need at least 100 training samples", 400%Z), Some trained_model).
Proof.
  apply (server_facts.retrain_too_few (L := rows_lib) _
           [("training_data", small_training_data)]
           (repeat (reading 9 30 200) 5)).
  - reflexivity.
  - reflexivity.
  - cbn. lia.
Defined.

Lemma small_train_run :
  exists metrics self',
    train (L := rows_lib) small_training_data __init__ = (inr metrics, self').
Proof.
  cbn. unfold Rltb.
  destruct (Rlt_dec 9 10) as [_ | Hn]; [| exfalso; lra].
  eexists. eexists. reflexivity.
Defined.

Lemma train_success_witness :
  exists metrics self',
    train (L := rows_lib) small_training_data __init__ = (inr metrics, self') /\
    is_trained self' = true /\
    validation_metrics self' = Some metrics.
Proof.
  destruct small_train_run as (metrics & self' & Hrun).
  exists metrics, self'. split; [exact Hrun|].
  destruct (isolation_forest_facts.train_success (L := rows_lib) _ _ _ _ Hrun)
    as (ds & rows & X & X_train & X_test & y_pred & y_true & ytb & ypb & H).
  split; apply H.
Defined.

(** C9, as stated, fails on doubles.  At the score 10.0 the exponential is
    about [3.72e-44], [1 + 3.72e-44] rounds to [1.0], and the confidence
    returned is exactly [1.0], not a value below 1.  The same happens at the
    finite scores [1e308] and [-1e308] (the doubles
    [0x1.1ccf385ebc8ap+1023] and its opposite), where [-anomaly_score * 10]
    overflows to an infinity. *)
Lemma confidence_reaches_one :
  Binary64._calculate_confidence Binary64.np_exp_table 10%float = 1%float /\
  PrimFloat.ltb (Binary64._calculate_confidence Binary64.np_exp_table 10%float)
    1%float = false /\
  Binary64._calculate_confidence Binary64.np_exp_table 0x1.1ccf385ebc8ap+1023%float
    = 1%float /\
  Binary64._calculate_confidence Binary64.np_exp_table (-0x1.1ccf385ebc8ap+1023)%float
    = 1%float.
Proof. repeat split; reflexivity. Qed.

End Runs.

(** * Further properties *)

(** ** [IsolationForestModel]: errors, invariants, composition *)

Module isolation_forest_props.
Import isolation_forest.
#[local] Open Scope string_scope.

Lemma py_getitem_inr d key v :
  py_getitem d key = inr v -> exists kv, d = PDict kv /\ assoc key kv = Some v.
Proof.
  destruct d; cbn; try discriminate.
  destruct (assoc key d) as [x |] eqn:Hx; [|discriminate].
  intros H. injection H as <-. eauto.
Qed.

Lemma py_getitem_inl d key e :
  py_getitem d key = inl e -> py_class e = "KeyError" \/ py_class e = "TypeError".
Proof.
  destruct d; cbn; try (intros H; injection H as <-; cbn; auto; fail).
  destruct (assoc key d); [discriminate|].
  intros H. injection H as <-. cbn. auto.
Qed.

Lemma feature_row_inr d row :
  feature_row d = inr row -> well_formed d.
Proof.
  intros H. apply isolation_forest_facts.feature_row_columns in H.
  destruct H as (v & t & p & Hv & Ht & Hp & _).
  apply py_getitem_inr in Hv, Ht, Hp.
  destruct Hv as (kv & -> & Hv). destruct Ht as (kv' & E & Ht). injection E as <-.
  destruct Hp as (kv' & E & Hp). injection E as <-.
  exists kv, v, t, p. auto.
Qed.

Lemma feature_row_well_formed d :
  well_formed d -> exists row, feature_row d = inr row /\ columns d row.
Proof.
  intros (kv & v & t & p & -> & Hv & Ht & Hp).
  exists [v; t; p]. unfold feature_row, columns. cbn. rewrite Hv, Ht, Hp. cbn.
  split; [reflexivity|]. exists v, t, p. auto.
Qed.

Lemma feature_row_inl d e :
  feature_row d = inl e -> py_class e = "KeyError" \/ py_class e = "TypeError".
Proof.
  unfold feature_row. cbn.
  destruct (py_getitem d "voltage") as [e1 | v] eqn:Hv.
  { intros H. injection H as <-. eapply py_getitem_inl; eauto. }
  destruct (py_getitem d "temperature") as [e1 | t] eqn:Ht.
  { intros H. injection H as <-. eapply py_getitem_inl; eauto. }
  destruct (py_getitem d "power_output") as [e1 | p] eqn:Hp.
  { intros H. injection H as <-. eapply py_getitem_inl; eauto. }
  discriminate.
Qed.

(** A list comprehension raises what its first failing item raises. *)
Lemma mapM_inl {A B : Type} (f : A -> result B) l e :
  mapM f l = inl e -> exists a, In a l /\ f a = inl e.
Proof.
  induction l as [| a l IH]; cbn; [discriminate|].
  destruct (f a) as [e1 | b] eqn:Ha.
  - intros H. injection H as <-. eauto.
  - destruct (mapM f l) as [e1 | bs]; [|discriminate].
    intros H. injection H as <-. destruct (IH eq_refl) as (a' & Hin & Hf). eauto.
Qed.

Lemma mapM_inr_all {A B : Type} (f : A -> result B) l :
  (forall a, In a l -> exists b, f a = inr b) -> exists bs, mapM f l = inr bs.
Proof.
  induction l as [| a l IH]; intros Hall; cbn; [eauto|].
  destruct (Hall a (or_introl eq_refl)) as (b & ->).
  destruct IH as (bs & ->); [intros; apply Hall; right; assumption|]. eauto.
Qed.

Lemma feature_rows_lemma (ds : list pyval) :
  (exists rows, feature_rows (PList ds) = inr rows) <-> Forall well_formed ds.
Proof.
  unfold feature_rows. cbn. split.
  - intros (rows & H). apply PyFacts.mapM_Forall2 in H.
    induction H; constructor; eauto using feature_row_inr.
  - intros Hall. apply mapM_inr_all. intros d Hd.
    rewrite Forall_forall in Hall.
    destruct (feature_row_well_formed d (Hall d Hd)) as (row & Hrow & _). eauto.
Qed.

Lemma feature_rows_length (ds : list pyval) rows :
  feature_rows (PList ds) = inr rows ->
  Forall2 columns ds rows /\ List.length rows = List.length ds.
Proof.
  unfold feature_rows. cbn. intros H. apply PyFacts.mapM_Forall2 in H.
  split.
  - refine (Forall2_impl _ _ H). exact isolation_forest_facts.feature_row_columns.
  - symmetry. eapply Forall2_length; eauto.
Qed.

(** X1.  Taking the features out of a list of readings succeeds exactly when
    every reading is a dict holding the keys [voltage], [temperature] and
    [power_output]; the values are not looked at.  On success there is one
    row per reading, in the same order. *)
Theorem feature_rows_iff (ds : list pyval) :
  ((exists rows, feature_rows (PList ds) = inr rows) <-> Forall well_formed ds) /\
  (forall rows,
     feature_rows (PList ds) = inr rows ->
     Forall2 columns ds rows /\ List.length rows = List.length ds).
Proof.
  split; [apply feature_rows_lemma | apply feature_rows_length].
Qed.

Section WithSklearn.
Context {L : Sklearn}.

(** Case analysis on every step of a run. *)
Ltac split_run :=
  repeat match goal with
         | |- context [match ?x with inl _ => _ | inr _ => _ end] =>
             destruct x eqn:?; cbn
         | |- context [let (_, _) := ?x in _] => destruct x eqn:?; cbn
         | |- context [if ?b then _ else _] => destruct b eqn:?; cbn
         end.

Lemma predict_snd (voltage temperature power_output : pyval)
    (self : IsolationForestModel) :
  snd (predict voltage temperature power_output self) = self.
Proof.
  unfold predict. cbn. unfold lift. split_run; reflexivity.
Qed.

Lemma save_model_snd (filepath : string) (self : IsolationForestModel) :
  snd (save_model filepath self) = self.
Proof. unfold save_model. cbn. destruct (is_trained self); reflexivity. Qed.

(** [train] sets the flag or leaves it alone. *)
Lemma train_flag (training_data : pyval) (self : IsolationForestModel) :
  is_trained (snd (train training_data self)) = true \/
  is_trained (snd (train training_data self)) = is_trained self.
Proof.
  unfold train. cbn -[feature_rows]. unfold lift, self_model_fit.
  destruct (feature_rows training_data) as [e | rows]; cbn; [auto|].
  destruct (np_array rows) as [e | X]; cbn; [auto|].
  destruct (train_test_split X 0.2 42) as [e | parts]; cbn; [auto|].
  destruct (fit (model self) (fst parts)) as [[e | u] est]; cbn; [auto|].
  split_run; cbn; auto.
Qed.

Lemma train_inr_state (training_data : pyval) (self self' : IsolationForestModel)
    (metrics : Metrics) :
  train training_data self = (inr metrics, self') ->
  is_trained self' = true /\ validation_metrics self' = Some metrics.
Proof.
  unfold train. cbn -[feature_rows]. unfold lift, self_model_fit.
  destruct (feature_rows training_data) as [e | rows]; cbn; [discriminate|].
  destruct (np_array rows) as [e | X]; cbn; [discriminate|].
  destruct (train_test_split X 0.2 42) as [e | parts]; cbn; [discriminate|].
  destruct (fit (model self) (fst parts)) as [[e | u] est]; cbn; [discriminate|].
  split_run; intros H; try discriminate.
  injection H as <- <-. cbn. auto.
Qed.

(** X2.  When one reading of the list is not a dict with the three keys,
    [train] raises [KeyError] or [TypeError] and [self] is exactly as
    before: no library function has been called and [training_samples] is
    untouched. *)
Theorem train_malformed_reading (ds : list pyval) (self : IsolationForestModel) :
  Exists (fun d => ~ well_formed d) ds ->
  exists e,
    train (PList ds) self = (inl e, self) /\
    (py_class e = "KeyError" \/ py_class e = "TypeError").
Proof.
  intros Hbad.
  destruct (feature_rows (PList ds)) as [e | rows] eqn:Hrows.
  - exists e. split.
    + unfold train. rewrite Hrows. reflexivity.
    + unfold feature_rows in Hrows. cbn in Hrows.
      apply mapM_inl in Hrows. destruct Hrows as (d & _ & Hd).
      eapply feature_row_inl; eauto.
  - exfalso. assert (Hall : Forall well_formed ds) by (apply feature_rows_lemma; eauto).
    rewrite Exists_exists in Hbad. destruct Hbad as (d & Hin & Hd).
    rewrite Forall_forall in Hall. auto.
Qed.

(** X3.  [predict] never changes [self], whatever its arguments are and
    whether it returns or raises. *)
Theorem predict_preserves_self (voltage temperature power_output : pyval)
    (self : IsolationForestModel) :
  snd (predict voltage temperature power_output self) = self.
Proof. apply predict_snd. Qed.


(** X5.  When [joblib.load] raises, [load_model] raises the same exception
    and [self] -- its estimator and its [is_trained] flag included -- is
    unchanged. *)
Theorem load_model_failure (filepath : string) (e : exn)
    (self : IsolationForestModel) :
  joblib_load filepath = inl e ->
  load_model filepath self = (inl e, self).
Proof.
  intros H. unfold load_model. cbn. unfold lift. rewrite H. reflexivity.
Qed.

(** X6.  [save_model] never changes [self].  On an untrained model it raises
    [Exception("Cannot save untrained model")] without calling
    [joblib.dump]; on a trained one its outcome is that of
    [joblib.dump(self.model, filepath)]. *)
Theorem save_model_spec (filepath : string) (self : IsolationForestModel) :
  snd (save_model filepath self) = self /\
  (is_trained self = false ->
   fst (save_model filepath self)
     = inl (Raise "Exception" "Cannot save untrained model")) /\
  (is_trained self = true ->
   fst (save_model filepath self) = joblib_dump (model self) filepath).
Proof.
  unfold save_model. cbn. destruct (is_trained self); cbn.
  - repeat split; auto. discriminate.
  - repeat split; auto. discriminate.
Qed.

(** X7.  No method ever resets the trained flag: after [train], [predict],
    [save_model] or [load_model], returning or raising, a model that was
    trained is still trained. *)
Theorem is_trained_stays (self : IsolationForestModel) :
  is_trained self = true ->
  (forall training_data, is_trained (snd (train training_data self)) = true) /\
  (forall v t p, is_trained (snd (predict v t p self)) = true) /\
  (forall filepath, is_trained (snd (save_model filepath self)) = true) /\
  (forall filepath, is_trained (snd (load_model filepath self)) = true).
Proof.
  intros Ht. repeat split.
  - intros training_data. destruct (train_flag training_data self); congruence.
  - intros v t p. rewrite predict_snd. exact Ht.
  - intros filepath. rewrite save_model_snd. exact Ht.
  - intros filepath. unfold load_model. cbn. unfold lift.
    destruct (joblib_load filepath); cbn; auto.
Qed.

(** X8.  After a [train] that returned, [get_info] reports the model as
    trained and carries the very metrics [train] returned. *)
Theorem get_info_after_train (training_data : pyval)
    (self self' : IsolationForestModel) (metrics : Metrics) :
  train training_data self = (inr metrics, self') ->
  assoc "is_trained" (match get_info self' with PDict d => d | _ => [] end)
    = Some (PBool true) /\
  assoc "validation_metrics" (match get_info self' with PDict d => d | _ => [] end)
    = Some (metrics_dict (Some metrics)) /\
  assoc "test_samples"
    (match metrics_dict (Some metrics) with PDict d => d | _ => [] end)
    = Some (PInt (test_samples metrics)).
Proof.
  intros Hrun. destruct (train_inr_state _ _ _ _ Hrun) as [Ht Hvm].
  cbn. rewrite Ht, Hvm. auto.
Qed.

End WithSklearn.
End isolation_forest_props.

(** ** The handlers: status codes, state, sequences of requests *)

Module server_props.
Import isolation_forest server.
#[local] Open Scope string_scope.

Lemma py_get_dict d key :
  py_get (PDict d) key
    = inr (match assoc key d with Some x => x | None => PNone end).
Proof. cbn. destruct (assoc key d); reflexivity. Qed.

Lemma py_get_non_dict data key :
  (forall d, data <> PDict d) ->
  exists msg, py_get data key = inl (Raise "AttributeError" msg).
Proof.
  intros Hnd. destruct data; cbn; eauto. exfalso. eapply Hnd. reflexivity.
Qed.

Lemma is_None_true v : is_None v = true <-> v = PNone.
Proof. destruct v; cbn; split; intros; congruence. Qed.

(** The presence test of [/predict] fails exactly on a missing field. *)
Lemma presence_test d :
  is_None (match assoc "voltage" d with Some x => x | None => PNone end)
  || is_None (match assoc "temperature" d with Some x => x | None => PNone end)
  || is_None (match assoc "power_output" d with Some x => x | None => PNone end) = true
  <-> missing_field d.
Proof.
  unfold missing_field, required. rewrite !orb_true_iff, !is_None_true. split.
  - intros [[H | H] | H];
      [exists "voltage" | exists "temperature" | exists "power_output"];
      (split; [cbn; auto|]);
      match type of H with
      | match ?a with _ => _ end = _ => destruct a; [right; congruence | left; reflexivity]
      end.
  - intros (key & Hin & Hm). cbn in Hin.
    destruct Hin as [<- | [<- | [<- | []]]]; destruct Hm as [-> | ->]; auto.
Qed.

Lemma py_between_inr lo v hi b :
  py_between lo v hi = inr b -> exists x, num_of v = Some x.
Proof. unfold py_between. destruct (num_of v); [eauto | discriminate]. Qed.

Lemma too_few_true training_data :
  too_few training_data = inr true <-> short training_data.
Proof.
  unfold too_few, short. destruct (truthy training_data); cbn.
  - split.
    + destruct (py_len training_data) as [e | n]; cbn; [discriminate|].
      intros H. injection H as H. right. exists n. split; [reflexivity|].
      apply Z.ltb_lt. exact H.
    + intros [H | (n & Hn & Hlt)]; [discriminate|].
      rewrite Hn. cbn. f_equal. apply Z.ltb_lt. exact Hlt.
  - split; auto.
Qed.

Section WithSklearn.
Context {L : Sklearn}.

Ltac now_500 := solve [split; [reflexivity | left; reflexivity]].

(** Every way [/predict] can end. *)
Lemma predict_cases (request : Request) (model : Server) :
  snd (predict request model) = model /\
  ( status (fst (predict request model)) = 500%Z
    \/
    (status (fst (predict request model)) = 400%Z /\
     exists data, get_json request = inr data /\
       (truthy data = false \/ exists d, data = PDict d /\ missing_field d))
    \/
    (exists d voltage temperature power_output self r,
       get_json request = inr (PDict d) /\
       assoc "voltage" d = Some voltage /\
       assoc "temperature" d = Some temperature /\
       assoc "power_output" d = Some power_output /\
       num_of voltage <> None /\ num_of temperature <> None /\
       num_of power_output <> None /\
       model = Some self /\ is_trained self = true /\
       isolation_forest.predict voltage temperature power_output self = (inr r, self) /\
       fst (predict request model) = (r, 200%Z)) ).
Proof.
  unfold predict, predict_try. cbn -[isolation_forest.predict]. unfold lift.
  destruct (get_json request) as [e | data] eqn:Hjson; cbn -[isolation_forest.predict]; [now_500|].
  destruct (truthy data) eqn:Htruthy; cbn -[isolation_forest.predict];
    [| split; [reflexivity|]; right; left; split; [reflexivity|]; eauto ].
  destruct data as [ | b | n | x | str | l | d ];
    try (cbn -[isolation_forest.predict]; now_500).
  rewrite !py_get_dict. cbn -[isolation_forest.predict].
  destruct (is_None _ || is_None _ || is_None _) eqn:Hpres; cbn -[isolation_forest.predict].
  { split; [reflexivity|]. right. left. split; [reflexivity|].
    exists (PDict d). split; [reflexivity|]. right. exists d. split; [reflexivity|].
    apply presence_test. exact Hpres. }
  rewrite !orb_false_iff in Hpres. destruct Hpres as [[Hv Ht] Hp].
  destruct (assoc "voltage" d) as [voltage |] eqn:Ev; [|discriminate].
  destruct (assoc "temperature" d) as [temperature |] eqn:Et; [|discriminate].
  destruct (assoc "power_output" d) as [power_output |] eqn:Ep; [|discriminate].
  destruct (py_between 8 voltage 14) as [e | b1] eqn:B1; cbn -[isolation_forest.predict]; [now_500|].
  destruct (py_between 15 temperature 50) as [e | b2] eqn:B2; cbn -[isolation_forest.predict]; [now_500|].
  destruct (py_between 0 power_output 300) as [e | b3] eqn:B3; cbn -[isolation_forest.predict]; [now_500|].
  apply py_between_inr in B1, B2, B3.
  destruct model as [self |]; cbn -[isolation_forest.predict]; [|now_500].
  destruct (is_trained self) eqn:Htrained; cbn -[isolation_forest.predict]; [|now_500].
  unfold on_model.
  pose proof (isolation_forest_props.predict_snd voltage temperature power_output self) as Hsnd.
  destruct (isolation_forest.predict voltage temperature power_output self)
    as [[e | r] self'] eqn:Hrun; cbn in Hsnd |- *; subst self'.
  - now_500.
  - split; [reflexivity|]. right. right.
    exists d, voltage, temperature, power_output, self, r.
    destruct B1 as (x1 & ->), B2 as (x2 & ->), B3 as (x3 & ->).
    repeat split; auto; discriminate.
Qed.

(** X9.  [POST /predict] never changes the model, and its status is 200, 400
    or 500, for every request and every state of the server. *)
Theorem predict_handler_pure (request : Request) (model : Server) :
  snd (predict request model) = model /\
  (status (fst (predict request model)) = 200%Z \/
   status (fst (predict request model)) = 400%Z \/
   status (fst (predict request model)) = 500%Z).
Proof.
  destruct (predict_cases request model) as [Hs [H | [[H _] | H]]].
  - split; [exact Hs|]. right. right. exact H.
  - split; [exact Hs|]. right. left. exact H.
  - destruct H as (d & v & t & p & self & r & H).
    split; [exact Hs|]. left.
    destruct H as (_ & _ & _ & _ & _ & _ & _ & _ & _ & _ & ->). reflexivity.
Qed.

(** X10.  [POST /predict] answers 400 exactly when the JSON body is a false
    value (null, an empty object or array, 0, an empty string, false) or an
    object in which one of the three fields is absent or null. *)
Theorem predict_400_iff (request : Request) (model : Server) :
  status (fst (predict request model)) = 400%Z <->
  exists data, get_json request = inr data /\
    (truthy data = false \/ exists d, data = PDict d /\ missing_field d).
Proof.
  split.
  - intros H400.
    destruct (predict_cases request model) as [_ [H | [[_ H] | H]]].
    + rewrite H in H400. discriminate.
    + exact H.
    + destruct H as (d & v & t & p & self & r & H).
      destruct H as (_ & _ & _ & _ & _ & _ & _ & _ & _ & _ & E).
      rewrite E in H400. discriminate.
  - intros (data & Hjson & Hcase).
    unfold predict, predict_try. cbn. unfold lift. rewrite Hjson. cbn.
    destruct (truthy data) eqn:Htruthy; cbn; [|reflexivity].
    destruct Hcase as [Hf | (d & -> & Hm)]; [discriminate|].
    rewrite !py_get_dict. cbn.
    apply presence_test in Hm. rewrite Hm. reflexivity.
Qed.

(** X11.  A 200 from [POST /predict] means: the body was an object with the
    three fields holding numbers, the model exists and is trained, and the
    response is what [model.predict] returned for these three values. *)
Theorem predict_200_only (request : Request) (model : Server) :
  status (fst (predict request model)) = 200%Z ->
  exists d voltage temperature power_output self r,
    get_json request = inr (PDict d) /\
    assoc "voltage" d = Some voltage /\
    assoc "temperature" d = Some temperature /\
    assoc "power_output" d = Some power_output /\
    num_of voltage <> None /\ num_of temperature <> None /\
    num_of power_output <> None /\
    model = Some self /\ is_trained self = true /\
    isolation_forest.predict voltage temperature power_output self = (inr r, self) /\
    fst (predict request model) = (r, 200%Z).
Proof.
  intros H200.
  destruct (predict_cases request model) as [_ [H | [[H _] | H]]].
  - rewrite H in H200. discriminate.
  - rewrite H in H200. discriminate.
  - exact H.
Qed.

(** X12.  With the three fields holding numbers and the model absent or
    untrained, [POST /predict] answers 500 with the error
    ["Model not trained. Run training first."]. *)
Theorem predict_untrained_500 (request : Request) (d : list (string * pyval))
    (voltage temperature power_output : pyval) (model : Server) :
  get_json request = inr (PDict d) ->
  assoc "voltage" d = Some voltage ->
  assoc "temperature" d = Some temperature ->
  assoc "power_output" d = Some power_output ->
  num_of voltage <> None -> num_of temperature <> None ->
  num_of power_output <> None ->
  match model with Some self => is_trained self = false | None => True end ->
  predict request model
    = ((error "Model not trained. Run training first.", 500%Z), model).
Proof.
  intros Hjson Hv Ht Hp Nv Nt Np Hm.
  assert (Hd : truthy (PDict d) = true) by (destruct d; [discriminate | reflexivity]).
  unfold predict, predict_try. cbn -[truthy assoc]. unfold lift.
  rewrite Hjson. cbn -[truthy assoc]. rewrite Hd. cbn -[assoc].
  rewrite Hv, Ht, Hp. cbn.
  assert (Hnn : forall v, num_of v <> None -> is_None v = false)
    by (intros [] ?; cbn in *; congruence).
  rewrite !Hnn by assumption. cbn.
  unfold py_between.
  destruct (num_of voltage); [|contradiction].
  destruct (num_of temperature); [|contradiction].
  destruct (num_of power_output); [|contradiction]. cbn.
  destruct model as [self |]; cbn; [|reflexivity].
  rewrite Hm. reflexivity.
Qed.

(** X13.  When the body of [POST /predict] is a true value that is not an
    object (a number, a string, an array, true), or when reading the JSON
    raises, the answer is 500. *)
Theorem predict_not_an_object_500 (request : Request) (model : Server) :
  (exists e, get_json request = inl e) \/
  (exists data, get_json request = inr data /\ truthy data = true /\
     forall d, data <> PDict d) ->
  status (fst (predict request model)) = 500%Z.
Proof.
  unfold predict, predict_try. cbn. unfold lift.
  intros [(e & ->) | (data & -> & Htruthy & Hnd)]; cbn; [reflexivity|].
  rewrite Htruthy. cbn.
  destruct (py_get_non_dict data "voltage" Hnd) as (msg & ->). reflexivity.
Qed.

(** Every way [/retrain] can end. *)
Lemma retrain_cases (request : Request) (model : Server) :
  (status (fst (retrain request model)) = 500%Z /\ snd (retrain request model) = model)
  \/
  (retrain request model
     = ((error "Need at least 100 training samples", 400%Z), model) /\
   exists d, get_json request = inr (PDict d) /\
     short (match assoc "training_data" d with Some x => x | None => PNone end))
  \/
  (exists d training_data n,
     get_json request = inr (PDict d) /\
     assoc "training_data" d = Some training_data /\
     truthy training_data = true /\
     py_len training_data = inr n /\ (100 <= n)%Z /\
     retrain request model =
       match model with
       | None =>
           ((failure "Retraining failed"
               (Raise "AttributeError" "'NoneType' object has no attribute 'train'"),
             500%Z), None)
       | Some self =>
           match train training_data self with
           | (inl e, self') => ((failure "Retraining failed" e, 500%Z), Some self')
           | (inr _, self') =>
               ((PDict [("status", PStr "success");
                        ("training_samples", PInt n);
                        ("message", PStr "Model retrained successfully")], 200%Z),
                Some self')
           end
       end).
Proof.
  unfold retrain, retrain_try. cbn -[train too_few]. unfold lift.
  destruct (get_json request) as [e | data] eqn:Hjson; cbn -[train too_few]; [auto|].
  destruct data as [ | b | k | x | str | l | d ];
    try (cbn -[train too_few]; left; split; reflexivity).
  rewrite py_get_dict. cbn -[train too_few].
  destruct (too_few _) as [e | [|]] eqn:Hfew; cbn -[train too_few].
  - left. split; reflexivity.
  - right. left. split; [reflexivity|]. exists d. split; [reflexivity|].
    apply too_few_true. exact Hfew.
  - right. right.
    destruct (assoc "training_data" d) as [training_data |] eqn:Htd;
      [| cbn in Hfew; discriminate].
    unfold too_few in Hfew.
    destruct (truthy training_data) eqn:Htruthy; cbn in Hfew; [|discriminate].
    destruct (py_len training_data) as [e | n] eqn:Hlen; cbn in Hfew; [discriminate|].
    injection Hfew as Hfew. apply Z.ltb_ge in Hfew.
    exists d, training_data, n. repeat split; auto.
    unfold on_model. destruct model as [self |]; cbn -[train]; [|reflexivity].
    destruct (train training_data self) as [[e | m] self']; cbn; reflexivity.
Qed.

Lemma retrain_short (request : Request) (d : list (string * pyval)) (model : Server) :
  get_json request = inr (PDict d) ->
  short (match assoc "training_data" d with Some x => x | None => PNone end) ->
  retrain request model
    = ((error "Need at least 100 training samples", 400%Z), model).
Proof.
  intros Hjson Hshort. apply too_few_true in Hshort.
  unfold retrain, retrain_try. cbn -[train too_few py_get]. unfold lift.
  rewrite Hjson. cbn -[train too_few py_get]. rewrite py_get_dict.
  cbn -[train too_few]. rewrite Hshort. reflexivity.
Qed.

(** X14.  [POST /retrain] answers 400 exactly when the body is an object
    whose [training_data] is absent, a false value (null, empty, 0) or a
    list, string or object of fewer than 100 items; the model is then left
    untouched. *)
Theorem retrain_400_iff (request : Request) (model : Server) :
  (status (fst (retrain request model)) = 400%Z <->
   exists d, get_json request = inr (PDict d) /\
     short (match assoc "training_data" d with Some x => x | None => PNone end)) /\
  (status (fst (retrain request model)) = 400%Z ->
   snd (retrain request model) = model).
Proof.
  destruct (retrain_cases request model) as [[H5 Hs] | [[E Hd] | Hrun]].
  - split; [split|]; intros H.
    + rewrite H5 in H. discriminate.
    + exfalso. destruct H as (d & Hjson & Hshort).
      rewrite (retrain_short request d model Hjson Hshort) in H5. discriminate.
    + exact Hs.
  - rewrite E. cbn. split; [split|]; auto.
  - destruct Hrun as (d & td & n & Hjson & Htd & Htruthy & Hlen & Hn & E).
    assert (Hnot : status (fst (retrain request model)) <> 400%Z).
    { rewrite E. destruct model as [self |]; [|discriminate].
      destruct (train td self) as [[e | m] self']; discriminate. }
    split; [split|]; intros H.
    + contradiction.
    + exfalso. destruct H as (d' & Hjson' & Hshort).
      rewrite Hjson in Hjson'. injection Hjson' as <-. rewrite Htd in Hshort.
      destruct Hshort as [Hf | (n' & Hlen' & Hlt)]; [congruence|].
      rewrite Hlen in Hlen'. injection Hlen' as <-. lia.
    + contradiction.
Qed.

(** X15.  When the JSON body of [POST /retrain] is not an object -- null, a
    number, a string, an array -- or cannot be read, the answer is 500, not
    400, and the model is unchanged. *)
Theorem retrain_not_an_object_500 (request : Request) (model : Server) :
  (exists e, get_json request = inl e) \/
  (exists data, get_json request = inr data /\ forall d, data <> PDict d) ->
  status (fst (retrain request model)) = 500%Z /\
  snd (retrain request model) = model.
Proof.
  unfold retrain, retrain_try. cbn -[train]. unfold lift.
  intros [(e & ->) | (data & -> & Hnd)]; cbn -[train]; [split; reflexivity|].
  destruct (py_get_non_dict data "training_data" Hnd) as (msg & ->).
  split; reflexivity.
Qed.

(** X16.  When the body is an object whose [training_data] has a length of
    at least 100 and the model exists, [POST /retrain] is decided by
    [train]: if [train] returns, the answer is 200 with [training_samples]
    the length of [training_data]; if it raises [e], the answer is 500 with
    [str(e)] as message; and either way the model is as [train] left it. *)
Theorem retrain_runs_train (request : Request) (d : list (string * pyval))
    (training_data : pyval) (n : Z) (self : IsolationForestModel) :
  get_json request = inr (PDict d) ->
  assoc "training_data" d = Some training_data ->
  truthy training_data = true ->
  py_len training_data = inr n ->
  (100 <= n)%Z ->
  snd (retrain request (Some self)) = Some (snd (train training_data self)) /\
  (forall m self',
     train training_data self = (inr m, self') ->
     status (fst (retrain request (Some self))) = 200%Z /\
     py_field (fst (fst (retrain request (Some self)))) "training_samples"
       = Some (PInt n)) /\
  (forall e self',
     train training_data self = (inl e, self') ->
     status (fst (retrain request (Some self))) = 500%Z /\
     py_field (fst (fst (retrain request (Some self)))) "message"
       = Some (PStr (py_str e))).
Proof.
  intros Hjson Htd Htruthy Hlen Hn.
  assert (E : retrain request (Some self) =
              match train training_data self with
              | (inl e, self') => ((failure "Retraining failed" e, 500%Z), Some self')
              | (inr _, self') =>
                  ((PDict [("status", PStr "success");
                           ("training_samples", PInt n);
                           ("message", PStr "Model retrained successfully")], 200%Z),
                   Some self')
              end).
  { assert (Hge : (n <? 100)%Z = false) by (apply Z.ltb_ge; exact Hn).
    unfold retrain, retrain_try. cbn -[train py_len truthy assoc]. unfold lift.
    rewrite Hjson. cbn -[train py_len truthy assoc]. rewrite Htd.
    cbn -[train py_len truthy]. unfold too_few. rewrite Htruthy.
    cbn -[train py_len]. rewrite Hlen. cbn -[train py_len Z.ltb]. rewrite Hge.
    cbn -[train py_len]. unfold on_model.
    destruct (train training_data self) as [[e | m] self']; reflexivity. }
  rewrite E. repeat split.
  - destruct (train training_data self) as [[e | m] self']; reflexivity.
  - rewrite H. reflexivity.
  - rewrite H. reflexivity.
  - rewrite H. reflexivity.
  - rewrite H. reflexivity.
Qed.

(** X17.  A 200 from [POST /retrain] means the model is trained afterwards
    and holds validation metrics. *)
Theorem retrain_200_trained (request : Request) (model : Server) :
  status (fst (retrain request model)) = 200%Z ->
  exists self' metrics,
    snd (retrain request model) = Some self' /\
    is_trained self' = true /\
    validation_metrics self' = Some metrics.
Proof.
  intros H200.
  destruct (retrain_cases request model) as [[H5 _] | [[E _] | Hrun]].
  - rewrite H5 in H200. discriminate.
  - rewrite E in H200. discriminate.
  - destruct Hrun as (d & td & n & _ & _ & _ & _ & _ & E).
    rewrite E in H200 |- *. destruct model as [self |]; [|discriminate].
    destruct (train td self) as [[e | m] self'] eqn:Hrun; [discriminate|].
    destruct (isolation_forest_props.train_inr_state _ _ _ _ Hrun) as [Ht Hvm].
    exists self', m. auto.
Qed.

(** X18.  [GET /health] always answers 200 and never changes the model; its
    [status] field is ["ok"] exactly when the model exists and is trained,
    and ["error"] otherwise -- still with status code 200. *)
Theorem health_check_spec (model : Server) :
  status (fst (health_check model)) = 200%Z /\
  snd (health_check model) = model /\
  (py_field (fst (fst (health_check model))) "status" = Some (PStr "ok") <->
   exists self, model = Some self /\ is_trained self = true) /\
  (py_field (fst (fst (health_check model))) "status" = Some (PStr "error") <->
   ~ exists self, model = Some self /\ is_trained self = true).
Proof.
  unfold health_check.
  destruct model as [self |]; [destruct (is_trained self) eqn:Ht|]; cbn;
    (split; [reflexivity|]); (split; [reflexivity|]); split; split.
  - intros _. eauto.
  - reflexivity.
  - discriminate.
  - intros H. exfalso. apply H. eauto.
  - discriminate.
  - intros (s & E & Hs). congruence.
  - intros _ (s & E & Hs). congruence.
  - reflexivity.
  - discriminate.
  - intros (s & E & _). discriminate.
  - intros _ (s & E & _). discriminate.
  - reflexivity.
Qed.

(** The handlers that only read. *)
Lemma handle_read_only (c : Call) (model : Server) :
  match c with Retrain _ => True | _ => snd (handle c model) = model end.
Proof.
  destruct c; cbn -[predict]; auto.
  - apply predict_cases.
  - unfold model_info. destruct model; reflexivity.
Qed.

Lemma handle_keeps_trained (c : Call) (self : IsolationForestModel) :
  is_trained self = true ->
  exists self', snd (handle c (Some self)) = Some self' /\ is_trained self' = true.
Proof.
  intros Ht. destruct c as [ | request | request | ].
  - exists self. split; [reflexivity | exact Ht].
  - exists self. split; [apply predict_cases | exact Ht].
  - cbn -[retrain].
    destruct (retrain_cases request (Some self)) as [[_ Hs] | [[E _] | Hrun]].
    + rewrite Hs. eauto.
    + rewrite E. cbn. eauto.
    + destruct Hrun as (d & td & n & _ & _ & _ & _ & _ & E). rewrite E.
      pose proof (isolation_forest_props.train_flag td self) as Hflag.
      destruct (train td self) as [[e | m] self']; cbn in *;
        exists self'; (split; [reflexivity|]); destruct Hflag; congruence.
  - exists self. split; [reflexivity | exact Ht].
Qed.

Lemma handle_keeps_none (c : Call) : snd (handle c None) = None.
Proof.
  destruct c as [ | request | request | ]; try reflexivity.
  - apply predict_cases.
  - cbn -[retrain].
    destruct (retrain_cases request None) as [[_ Hs] | [[E _] | Hrun]].
    + exact Hs.
    + rewrite E. reflexivity.
    + destruct Hrun as (d & td & n & _ & _ & _ & _ & _ & E). rewrite E. reflexivity.
Qed.

(** X19.  Once trained, always trained: whatever requests are served, in
    whatever order and with whatever outcome, a server whose model is
    trained still has a trained model afterwards. *)
Theorem serve_keeps_trained (calls : list Call) (self : IsolationForestModel) :
  is_trained self = true ->
  exists self', serve calls (Some self) = Some self' /\ is_trained self' = true.
Proof.
  revert self. induction calls as [| c calls IH]; intros self Ht.
  - exists self. auto.
  - cbn [serve]. destruct (handle_keeps_trained c self Ht) as (self1 & -> & Ht1).
    apply IH. exact Ht1.
Qed.

(** X20.  When the model could not be constructed, it stays absent whatever
    is served, and no request succeeds: [/predict] answers 400 or 500,
    [/retrain] answers 400 or 500, [/model/info] answers 500, and [/health]
    answers 200 with status ["error"]. *)
Theorem no_model_no_success (calls : list Call) :
  serve calls None = None /\
  (forall request,
     status (fst (predict request None)) = 400%Z \/
     status (fst (predict request None)) = 500%Z) /\
  (forall request,
     status (fst (retrain request None)) = 400%Z \/
     status (fst (retrain request None)) = 500%Z) /\
  status (fst (model_info None)) = 500%Z /\
  py_field (fst (fst (health_check None))) "status" = Some (PStr "error").
Proof.
  repeat split.
  - induction calls as [| c calls IH]; [reflexivity|].
    cbn [serve]. rewrite handle_keeps_none. exact IH.
  - intros request.
    destruct (predict_cases request None) as [_ [H | [[H _] | H]]]; auto.
    destruct H as (d & v & t & p & self & r & H).
    destruct H as (_ & _ & _ & _ & _ & _ & _ & E & _). discriminate.
  - intros request.
    destruct (retrain_cases request None) as [[H _] | [[E _] | Hrun]]; auto.
    + rewrite E. auto.
    + destruct Hrun as (d & td & n & _ & _ & _ & _ & _ & E). rewrite E. auto.
Qed.

(** X21.  Only [/retrain] can change the model: a sequence of requests
    without a [/retrain] leaves the server exactly as it was. *)
Theorem serve_read_only (calls : list Call) (model : Server) :
  Forall (fun c => match c with Retrain _ => False | _ => True end) calls ->
  serve calls model = model.
Proof.
  induction 1 as [| c calls Hc _ IH]; [reflexivity|].
  cbn [serve]. pose proof (handle_read_only c model) as Hro.
  destruct c; try contradiction; rewrite Hro; exact IH.
Qed.

End WithSklearn.
End server_props.

(** ** The generators: composition with [train], the time series *)

Module generate_training_data_props.
Import isolation_forest generate_training_data.
#[local] Open Scope string_scope.

Lemma reading_inj v t p v' t' p' :
  reading v t p = reading v' t' p' -> v = v' /\ t = t' /\ p = p'.
Proof. unfold reading. intros H. injection H as -> -> ->. auto. Qed.

Lemma feature_row_reading v t p :
  feature_row (reading v t p) = inr [PFloat v; PFloat t; PFloat p].
Proof. reflexivity. Qed.

Lemma heuristic_label_floats v t p :
  heuristic_label [PFloat v; PFloat t; PFloat p]
    = inr (if Rlt_dec v 10 then (-1)%Z
           else if Rlt_dec 40 t then (-1)%Z
           else if Rlt_dec p 100 then (-1)%Z else 1%Z).
Proof.
  unfold heuristic_label. cbn. unfold Rltb.
  destruct (Rlt_dec v 10); cbn; [reflexivity|].
  destruct (Rlt_dec 40 t); cbn; [reflexivity|].
  destruct (Rlt_dec p 100); reflexivity.
Qed.

(** X22.  What the validation rule of [train] makes of the generator's
    regimes: a normal or a dust reading is always labelled 1 (not an
    anomaly); an overheat reading is labelled -1 unless its temperature is
    exactly 40; a voltage-drop reading is labelled -1 exactly when its
    voltage is below 10 or its power below 100.  The rule never raises on a
    generated reading. *)
Theorem heuristic_by_regime (r : regime) (v t p : R) :
  in_box (documented r) (reading v t p) ->
  exists y,
    heuristic_label [PFloat v; PFloat t; PFloat p] = inr y /\
    match r with
    | Normal | Dust => y = 1%Z
    | Overheat => (y = (-1)%Z <-> 40 < t) /\ (y = 1%Z <-> t = 40)
    | VoltageDrop => (y = (-1)%Z <-> v < 10 \/ p < 100) /\ (y = 1%Z \/ y = (-1)%Z)
    end.
Proof.
  intros (v' & t' & p' & E & Hv & Ht & Hp).
  apply reading_inj in E. destruct E as (<- & <- & <-).
  rewrite heuristic_label_floats. eexists. split; [reflexivity|].
  destruct r; cbn in Hv, Ht, Hp;
    destruct (Rlt_dec v 10); destruct (Rlt_dec 40 t); destruct (Rlt_dec p 100);
    try lra; try reflexivity;
    repeat split; intros; try lra; try lia; try discriminate; auto;
    try (exfalso; lra).
  all: try (match goal with H : _ \/ _ |- _ => destruct H; lra end).
Qed.

Section WithRandom.
Context {G : NumpyRandom}.

Hypothesis uniform_range :
  forall low high g, low <= high -> low <= fst (uniform low high g) <= high.
Hypothesis shuffle_perm :
  forall data g, Permutation data (fst (shuffle data g)).

Lemma in_box_well_formed b d : in_box b d -> well_formed d.
Proof.
  intros (v & t & p & -> & _). unfold reading.
  exists [("voltage", PFloat v); ("temperature", PFloat t); ("power_output", PFloat p)],
         (PFloat v), (PFloat t), (PFloat p).
  auto.
Qed.

(** X23.  The generator and [train] fit together: every list
    [generate_synthetic_data] returns passes the feature extraction of
    [train], giving one row of three floats per reading, on which the
    validation rule does not raise.  A failure of [train] on generated data
    can therefore only come from the libraries. *)
Theorem generated_data_trainable (N random_seed : Z) (g : rng) :
  seed random_seed = inr g ->
  exists data rows,
    generate_synthetic_data N random_seed = inr data /\
    feature_rows (PList data) = inr rows /\
    List.length rows = List.length data /\
    Forall (fun row =>
              exists v t p y,
                row = [PFloat v; PFloat t; PFloat p] /\
                heuristic_label row = inr y)
           rows.
Proof.
  intros Hseed.
  destruct (generate_training_data_facts.generate_structure
              uniform_range shuffle_perm N random_seed g Hseed)
    as (data & b1 & b2 & b3 & b4 & Hgen & Hperm & _ & _ & _ & _ & F1 & F2 & F3 & F4).
  assert (Hall : Forall (fun d => exists r, in_box (documented r) d) data).
  { rewrite Forall_forall in *. intros d Hd.
    apply (Permutation_in _ (Permutation_sym Hperm)) in Hd.
    rewrite !in_app_iff in Hd.
    destruct Hd as [H | [H | [H | H]]]; eauto. }
  assert (Hwf : Forall well_formed data).
  { refine (Forall_impl _ _ Hall). intros d (r & Hd). eapply in_box_well_formed; eauto. }
  destruct (proj2 (isolation_forest_props.feature_rows_lemma data) Hwf) as (rows & Hrows).
  exists data, rows. split; [exact Hgen|]. split; [exact Hrows|].
  destruct (isolation_forest_props.feature_rows_length data rows Hrows) as [Hcols Hlen].
  split; [exact Hlen|].
  clear Hgen Hperm F1 F2 F3 F4 Hwf Hrows Hlen.
  induction Hcols as [| d row ds rows' Hc _ IH]; [constructor|].
  inversion Hall as [| ? ? (r & v & t & p & -> & _) Hall']; subst.
  constructor; [|apply IH; exact Hall'].
  destruct Hc as (cv & ct & cp & Ev & Et & Ep & ->).
  cbn in Ev, Et, Ep. injection Ev as <-. injection Et as <-. injection Ep as <-.
  exists v, t, p. eexists. split; [reflexivity|]. apply heuristic_label_floats.
Qed.

End WithRandom.
End generate_training_data_props.

(** ** [generate_time_series_data] *)

Module time_series_props.
Import generate_training_data.

Lemma in_py_range (i n : Z) : In i (py_range n) -> (0 <= i < n)%Z.
Proof.
  unfold py_range, range_len. rewrite in_map_iff.
  intros (k & <- & Hk). apply in_seq in Hk. lia.
Qed.

Lemma length_py_range (n : Z) : List.length (py_range n) = range_len n.
Proof. unfold py_range. rewrite length_map, length_seq. reflexivity. Qed.


Lemma concat_singletons {A : Type} (Q : A -> Prop) (l : list Z) (blocks : list (list A)) :
  Forall2 (fun _ b => exists d, b = [d] /\ Q d) l blocks ->
  List.length (List.concat blocks) = List.length l /\ Forall Q (List.concat blocks).
Proof.
  induction 1 as [| i b l blocks (d & -> & Hd) _ [IHl IHq]]; cbn; [auto|].
  split; [congruence | constructor; assumption].
Qed.

Lemma concat_blocks {A : Type} (Q : A -> Prop) (k : nat) (l : list Z)
    (blocks : list (list A)) :
  Forall2 (fun _ b => List.length b = k /\ Forall Q b) l blocks ->
  List.length (List.concat blocks) = (List.length l * k)%nat /\
  Forall Q (List.concat blocks).
Proof.
  induction 1 as [| i b l blocks [Hk Hb] _ [IHl IHq]]; cbn; [auto|].
  rewrite length_app, Hk, IHl. split; [reflexivity|].
  apply Forall_app. auto.
Qed.

Section WithRandomAndClock.
Context {G : NumpyRandom} {D : Datetime} {Mth : NumpyMath}.

(** What numpy and [datetime] document of the operations used. *)
Hypothesis uniform_range :
  forall low high g, low <= high -> low <= fst (uniform low high g) <= high.
Hypothesis hour_range : forall t, (0 <= hour_of t <= 23)%Z.
Hypothesis sin_le_1 : forall x, np_sin x <= 1.

(** A loop whose body appends a block appends the blocks one after the
    other. *)
Lemma for_in_blocks (l : list Z) (body : Z -> list pyval * rng -> result (list pyval * rng))
    (P : Z -> list pyval -> Prop) :
  (forall i, In i l -> forall data g,
     exists block g', body i (data, g) = inr (data ++ block, g') /\ P i block) ->
  forall data g,
  exists blocks g',
    for_in l body (data, g) = inr (data ++ List.concat blocks, g') /\
    Forall2 P l blocks.
Proof.
  induction l as [| i l IH]; intros Hbody data g.
  - exists [], g. cbn. rewrite app_nil_r. auto.
  - destruct (Hbody i (or_introl eq_refl) data g) as (block & g1 & Hstep & HP).
    destruct (IH (fun j Hj => Hbody j (or_intror Hj)) (data ++ block) g1)
      as (blocks & g' & Hloop & Hall).
    exists (block :: blocks), g'. cbn [for_in List.concat]. rewrite Hstep, Hloop.
    rewrite <- app_assoc. auto.
Qed.



(** One pass of the loop body, once its timestamp can be formed. *)
Lemma append_timed_reading_runs (start_time ts : datetime)
    (num_days day reading : Z) data g :
  plus_timedelta start_time day (reading * 5) = inr ts ->
  exists v t p g',
    append_timed_reading start_time num_days day reading (data, g)
      = inr (data ++ [timed_reading (isoformat ts)
                        (v * degradation_factor day num_days)
                        (t + IZR (hour_of ts - 12) * 0.5)
                        (200 * time_factor (hour_of ts)
                           * degradation_factor day num_days + p)], g') /\
    v = fst (uniform 11.5 12.5 g) /\
    t = fst (uniform 25 35 (snd (uniform 11.5 12.5 g))) /\
    p = fst (uniform (-10) 10 (snd (uniform 25 35 (snd (uniform 11.5 12.5 g))))).
Proof.
  intros Hts. unfold append_timed_reading. rewrite Hts. cbn.
  destruct (uniform 11.5 12.5 g) as [v g1]. cbn.
  destruct (uniform 25 35 g1) as [t g2]. cbn.
  destruct (uniform (-10) 10 g2) as [p g3]. cbn.
  exists v, t, p, g3. auto.
Qed.


(** The two nested loops, for any property the loop body gives its
    reading. *)
Lemma time_series_structure (Q : pyval -> Prop)
    (num_days readings_per_day : Z) (g : rng) (start_time : datetime) :
  seed 42 = inr g ->
  plus_timedelta now (- num_days) 0 = inr start_time ->
  (forall day reading data0 g0,
     (0 <= day < num_days)%Z -> (0 <= reading < readings_per_day)%Z ->
     exists d g',
       append_timed_reading start_time num_days day reading (data0, g0)
         = inr (data0 ++ [d], g') /\ Q d) ->
  exists data,
    generate_time_series_data num_days readings_per_day = inr data /\
    List.length data = (range_len num_days * range_len readings_per_day)%nat /\
    Forall Q data.
Proof.
  intros Hseed Hstart Hstep. unfold generate_time_series_data.
  rewrite Hseed. cbn. rewrite Hstart. cbn.
  destruct (for_in_blocks (py_range num_days)
              (fun day =>
                 for_in (py_range readings_per_day)
                   (fun reading => append_timed_reading start_time num_days day reading))
              (fun _ block =>
                 List.length block = range_len readings_per_day /\
                 Forall Q block))
    with (data := @nil pyval) (g := g) as (blocks & g' & -> & Hall).
  { intros day Hday data0 g0. apply in_py_range in Hday.
    destruct (for_in_blocks (py_range readings_per_day)
                (fun reading => append_timed_reading start_time num_days day reading)
                (fun _ block => exists d, block = [d] /\ Q d))
      with (data := data0) (g := g0) as (bs & g1 & Hrun & Hbs).
    { intros reading Hreading data1 g1. apply in_py_range in Hreading.
      destruct (Hstep day reading data1 g1 Hday Hreading) as (d & g2 & Hs & Hd).
      exists [d], g2. eauto. }
    exists (List.concat bs), g1. split; [exact Hrun|].
    destruct (concat_singletons _ _ _ Hbs) as [Hlen Hq].
    rewrite Hlen, length_py_range. auto. }
  cbn. eexists. split; [reflexivity|].
  destruct (concat_blocks _ _ _ _ Hall) as [Hlen Hq].
  rewrite Hlen, length_py_range. auto.
Qed.

(** X25.  When [np.random.seed(42)] succeeds and the dates of the run can be
    formed -- the start date and the timestamp of every tick of every day
    --, [generate_time_series_data] returns one reading per day and tick:
    [num_days * readings_per_day] readings when both are non-negative, and
    none when either is zero or negative. *)
Theorem time_series_length (num_days readings_per_day : Z) (g : rng)
    (start_time : datetime) :
  seed 42 = inr g ->
  run_dates_ok num_days readings_per_day start_time ->
  exists data,
    generate_time_series_data num_days readings_per_day = inr data /\
    ((0 <= num_days)%Z -> (0 <= readings_per_day)%Z ->
     Z.of_nat (List.length data) = (num_days * readings_per_day)%Z) /\
    ((num_days <= 0)%Z \/ (readings_per_day <= 0)%Z -> data = []).
Proof.
  intros Hseed [Hstart Hdates].
  destruct (time_series_structure (fun _ => True)
              num_days readings_per_day g start_time Hseed Hstart)
    as (data & Hgen & Hlen & _).
  { intros day reading data0 g0 Hday Hreading.
    destruct (Hdates day reading Hday Hreading) as (ts & Hts).
    destruct (append_timed_reading_runs start_time ts num_days day reading data0 g0 Hts)
      as (v & t & p & g' & Hrun & _).
    eauto. }
  exists data. split; [exact Hgen|]. unfold range_len in Hlen. split.
  - intros Hn Hm. rewrite Hlen. lia.
  - intros Hz. apply length_zero_iff_nil. rewrite Hlen. destruct Hz; nia.
Qed.


End WithRandomAndClock.
End time_series_props.

(** ** Start-up *)

Module startup_props.
Import isolation_forest generate_training_data server.

Section WithLibraries.
Context {L : Sklearn} {G : NumpyRandom}.

Hypothesis uniform_range :
  forall low high g, low <= high -> low <= fst (uniform low high g) <= high.
Hypothesis shuffle_perm :
  forall data g, Permutation data (fst (shuffle data g)).

Lemma generate_length (N random_seed : Z) (g : rng) :
  (0 <= N)%Z ->
  seed random_seed = inr g ->
  exists data,
    generate_synthetic_data N random_seed = inr data /\
    Z.of_nat (List.length data) = N /\
    Forall well_formed data.
Proof.
  intros HN Hseed.
  destruct (generate_training_data_facts.generate_structure
              uniform_range shuffle_perm N random_seed g Hseed)
    as (data & b1 & b2 & b3 & b4 & Hgen & Hperm & L1 & L2 & L3 & L4 & F1 & F2 & F3 & F4).
  destruct (generate_training_data_facts.counts_nonneg N HN)
    as (_ & _ & _ & P1 & P2 & P3 & P4).
  exists data. split; [exact Hgen|]. split.
  - rewrite <- (Permutation_length Hperm), !length_app, !Nat2Z.inj_add.
    rewrite L1, L2, L3, L4. unfold range_len, num_voltage_drop in *. lia.
  - rewrite Forall_forall in *. intros d Hd.
    apply (Permutation_in _ (Permutation_sym Hperm)) in Hd.
    rewrite !in_app_iff in Hd.
    destruct Hd as [H | [H | [H | H]]];
      eapply generate_training_data_props.in_box_well_formed; eauto.
Qed.

(** X27.  At start-up the model is trained on exactly 10000 generated
    readings, all of which pass the feature extraction of [train]: the
    server starts with the model as that one call of [train] left it,
    whether it returned or raised; a model that was not constructed stays
    absent. *)
Theorem startup_trains_on_generated (g : rng) :
  seed 42 = inr g ->
  exists data rows,
    generate_synthetic_data 10000 42 = inr data /\
    Z.of_nat (List.length data) = 10000%Z /\
    feature_rows (PList data) = inr rows /\
    Z.of_nat (List.length rows) = 10000%Z /\
    (forall self, startup (Some self) = Some (snd (train (PList data) self))) /\
    startup None = None.
Proof.
  intros Hseed.
  destruct (generate_length 10000 42 g ltac:(lia) Hseed) as (data & Hgen & Hlen & Hwf).
  destruct (proj2 (isolation_forest_props.feature_rows_lemma data) Hwf) as (rows & Hrows).
  destruct (isolation_forest_props.feature_rows_length data rows Hrows) as [_ Hrl].
  exists data, rows. repeat split; auto.
  - rewrite Hrl. exact Hlen.
  - intros self. unfold startup. rewrite Hgen. reflexivity.
Qed.

End WithLibraries.
End startup_props.

(** ** Further runs on concrete inputs *)

Module MoreRuns.
Import Instances isolation_forest generate_training_data server.
#[local] Open Scope string_scope.



(** A run over a few days from the clock's date stays far inside the range
    of [datetime]. *)
Lemma minute_clock_run_dates (num_days readings_per_day : Z) :
  (0 <= num_days <= 365)%Z -> (0 <= readings_per_day <= 288)%Z ->
  run_dates_ok (D := minute_clock) num_days readings_per_day
    (738000 * 1440 + 600 + - num_days * 1440 + 0)%Z.
Proof.
  intros Hn Hm. unfold run_dates_ok, plus_timedelta, now, minute_clock, max_minutes.
  cbv zeta. split.
  - assert (Hin : ((0 <=? 738000 * 1440 + 600 + - num_days * 1440 + 0)
                   && (738000 * 1440 + 600 + - num_days * 1440 + 0 <? 3652059 * 1440))%Z
                  = true)
      by (apply andb_true_iff; split; [apply Z.leb_le | apply Z.ltb_lt]; lia).
    rewrite Hin. reflexivity.
  - intros day reading Hday Hreading.
    assert (Hin : ((0 <=? 738000 * 1440 + 600 + - num_days * 1440 + 0
                          + day * 1440 + reading * 5)
                   && (738000 * 1440 + 600 + - num_days * 1440 + 0
                         + day * 1440 + reading * 5 <? 3652059 * 1440))%Z
                  = true)
      by (apply andb_true_iff; split; [apply Z.leb_le | apply Z.ltb_lt]; lia).
    rewrite Hin. eauto.
Qed.

Lemma train_malformed_reading_witness :
  exists e,
    train (L := rows_lib) (PList [PDict [("voltage", PFloat 12)]]) trained_model
      = (inl e, trained_model) /\
    (py_class e = "KeyError" \/ py_class e = "TypeError").
Proof.
  apply (isolation_forest_props.train_malformed_reading (L := rows_lib)).
  constructor. intros (kv & v & t & p & E & _ & Ht & _).
  injection E as <-. discriminate Ht.
Defined.


Lemma load_model_failure_witness :
  load_model (L := rows_lib) "missing.joblib" trained_model
    = (inl (Raise "FileNotFoundError" "missing.joblib"), trained_model).
Proof.
  apply (isolation_forest_props.load_model_failure (L := rows_lib)). reflexivity.
Defined.

Lemma is_trained_stays_witness :
  is_trained (snd (train (L := rows_lib) bad_training_data trained_model)) = true.
Proof.
  apply (isolation_forest_props.is_trained_stays (L := rows_lib) trained_model eq_refl).
Defined.

Lemma get_info_after_train_witness :
  exists info,
    py_field info "is_trained" = Some (PBool true).
Proof.
  destruct Runs.small_train_run as (metrics & self' & Hrun).
  exists (get_info self').
  apply (isolation_forest_props.get_info_after_train (L := rows_lib) _ _ _ _ Hrun).
Defined.

Lemma predict_200_only_witness :
  exists d, get_json {| get_json := inr (PDict numeric_body) |} = inr (PDict d).
Proof.
  assert (H200 : status (fst (predict (L := rows_lib)
                    {| get_json := inr (PDict numeric_body) |} (Some trained_model)))
                 = 200%Z) by reflexivity.
  destruct (server_props.predict_200_only (L := rows_lib) _ _ H200)
    as (d & v & t & p & self & r & Hjson & _).
  exists d. exact Hjson.
Defined.

Lemma predict_untrained_500_witness :
  predict (L := rows_lib) {| get_json := inr (PDict numeric_body) |} (Some __init__)
    = ((error "Model not trained. Run training first.", 500%Z), Some __init__).
Proof.
  apply (server_props.predict_untrained_500 (L := rows_lib) _ numeric_body
           (PFloat 12) (PFloat 28) (PFloat 200));
    try reflexivity; discriminate.
Defined.

Lemma predict_not_an_object_500_witness :
  status (fst (predict (L := rows_lib)
                 {| get_json := inr (PList [PInt 1]) |} (Some trained_model))) = 500%Z.
Proof.
  apply (server_props.predict_not_an_object_500 (L := rows_lib)).
  right. exists (PList [PInt 1]). repeat split; discriminate.
Defined.

Lemma retrain_not_an_object_500_witness :
  status (fst (retrain (L := rows_lib) {| get_json := inr PNone |} (Some trained_model)))
    = 500%Z /\
  snd (retrain (L := rows_lib) {| get_json := inr PNone |} (Some trained_model))
    = Some trained_model.
Proof.
  apply (server_props.retrain_not_an_object_500 (L := rows_lib)).
  right. exists PNone. split; [reflexivity | discriminate].
Defined.

Lemma retrain_runs_train_witness :
  snd (retrain (L := rows_lib)
         {| get_json := inr (PDict [("training_data", bad_training_data)]) |}
         (Some trained_model))
    = Some (snd (train (L := rows_lib) bad_training_data trained_model)).
Proof.
  apply (server_props.retrain_runs_train (L := rows_lib) _
           [("training_data", bad_training_data)] bad_training_data 100 trained_model);
    try reflexivity; try lia.
Defined.

Lemma retrain_200_trained_witness :
  exists self' metrics,
    snd (retrain (L := rows_lib)
           {| get_json := inr (PDict [("training_data", big_training_data)]) |}
           (Some trained_model)) = Some self' /\
    is_trained self' = true /\
    validation_metrics self' = Some metrics.
Proof.
  apply (server_props.retrain_200_trained (L := rows_lib)).
  unfold retrain, retrain_try. cbn. unfold Rltb.
  destruct (Rlt_dec 9 10) as [_ | Hn]; [| exfalso; lra].
  reflexivity.
Defined.

Lemma serve_keeps_trained_witness :
  exists self',
    serve (L := rows_lib)
      [Health;
       Retrain {| get_json := inr (PDict [("training_data", bad_training_data)]) |};
       Predict {| get_json := inr (PDict numeric_body) |};
       Info]
      (Some trained_model) = Some self' /\
    is_trained self' = true.
Proof.
  apply (server_props.serve_keeps_trained (L := rows_lib)). reflexivity.
Defined.

Lemma serve_read_only_witness :
  serve (L := rows_lib)
    [Health; Predict {| get_json := inr (PDict numeric_body) |}; Info]
    (Some trained_model) = Some trained_model.
Proof.
  apply (server_props.serve_read_only (L := rows_lib)).
  repeat constructor.
Defined.

Lemma heuristic_by_regime_witness :
  exists y, heuristic_label [PFloat 11; PFloat 35; PFloat 150] = inr y /\ y = 1%Z.
Proof.
  apply (generate_training_data_props.heuristic_by_regime Dust 11 35 150).
  exists 11, 35, 150. cbn. repeat split; lra.
Defined.

Lemma generated_data_trainable_witness :
  exists data rows,
    generate_synthetic_data (G := counter_rng) 50 42 = inr data /\
    feature_rows (PList data) = inr rows /\
    List.length rows = List.length data.
Proof.
  destruct (generate_training_data_props.generated_data_trainable
              (G := counter_rng) Runs.counter_rng_uniform_range
              Runs.counter_rng_shuffle_perm 50 42 42%Z eq_refl)
    as (data & rows & Hgen & Hrows & Hlen & _).
  exists data, rows. auto.
Defined.

Lemma time_series_length_witness :
  exists data,
    generate_time_series_data (G := counter_rng) (D := minute_clock)
      (Mth := real_math) 30 288 = inr data /\
    Z.of_nat (List.length data) = 8640%Z.
Proof.
  destruct (time_series_props.time_series_length
              (G := counter_rng) (D := minute_clock) (Mth := real_math)
              30 288 42%Z _ eq_refl
              (minute_clock_run_dates 30 288 ltac:(lia) ltac:(lia)))
    as (data & Hgen & Hlen & _).
  exists data. split; [exact Hgen|]. rewrite Hlen; lia.
Defined.


Lemma startup_trains_on_generated_witness :
  exists data,
    generate_synthetic_data (G := counter_rng) 10000 42 = inr data /\
    startup (L := rows_lib) (G := counter_rng) (Some __init__)
      = Some (snd (train (L := rows_lib) (PList data) __init__)).
Proof.
  destruct (startup_props.startup_trains_on_generated
              (L := rows_lib) (G := counter_rng) Runs.counter_rng_uniform_range
              Runs.counter_rng_shuffle_perm 42%Z eq_refl)
    as (data & rows & Hgen & _ & _ & _ & Hstart & _).
  exists data. split; [exact Hgen | apply Hstart].
Defined.

End MoreRuns.
